(** * burrow-infrastructure: the two Lambda handlers

    A shallow embedding of
      - [src/terraform/lambda/eventbridge_dlq_handler.py] (module [DlqHandler])
      - [src/lambdas/init-pgvector/src/index.py]          (module [InitPgvector])
    together with the properties of their specification.

    Python values are dynamically typed; the embedding keeps that: a decoded
    JSON document is a [json] value and every attribute access, subscript or
    iteration that Python would reject raises the exception Python raises.
    Calls into libraries (Secrets Manager, [json.loads], the construction
    and the sending of the HTTP request, the database driver) are answered by
    a [world]; what the handler does to the outside is recorded, in order, in
    a trace. *)

From Stdlib Require Import String Ascii List ZArith Lia Bool.
From Stdlib Require Import Floats.SpecFloat.
Import ListNotations.

Set Warnings "-register-all".

Open Scope string_scope.
Open Scope list_scope.

(* ------------------------------------------------------------------------- *)
(** ** Python objects, exceptions, results                                    *)
(* ------------------------------------------------------------------------- *)

Module Py.

(** What [json.loads] can return: [None], [bool], [int], [float], [str],
    [list], [dict].  A [dict] is kept as its items in insertion order; a
    [str] is kept as its UTF-8 bytes, which is transparent to every operation
    used below (equality, emptiness, splitting at ['/'] and ['.']). *)
Inductive json : Type :=
| JNull
| JBool (b : bool)
| JInt (z : Z)
| JFloat (f : spec_float)
| JStr (s : string)
| JArr (xs : list json)
| JObj (items : list (string * json)).

(** The exceptions the two modules can meet. *)
Inductive exn : Type :=
| AttributeError
| TypeError
| KeyError
| IndexError
| ValueError
| JSONDecodeError
| HTTPError (code : Z) (body : string)
| URLError (reason : string)
| OtherError (name : string).

Inductive result (A : Type) : Type :=
| Ok (a : A)
| Raise (e : exn).
Arguments Ok {A} a.
Arguments Raise {A} e.

Definition rbind {A B} (r : result A) (k : A -> result B) : result B :=
  match r with
  | Ok a => k a
  | Raise e => Raise e
  end.

(** [bool(v)], as used by [if not v]. *)
Definition truthy (v : json) : bool :=
  match v with
  | JNull => false
  | JBool b => b
  | JInt z => negb (z =? 0)%Z
  | JFloat (S754_zero _) => false
  | JFloat _ => true
  | JStr EmptyString => false
  | JStr _ => true
  | JArr [] => false
  | JArr _ => true
  | JObj [] => false
  | JObj _ => true
  end.

(** [d[k]] lookup in the items of a [dict] with [str] keys. *)
Fixpoint dict_lookup (k : string) (items : list (string * json)) : option json :=
  match items with
  | [] => None
  | (k', v) :: rest => if String.eqb k k' then Some v else dict_lookup k rest
  end.

(** [v.get(k, default)]: only a [dict] has a [get] attribute. *)
Definition py_get (v : json) (k : string) (default : json) : result json :=
  match v with
  | JObj items =>
      Ok (match dict_lookup k items with Some x => x | None => default end)
  | _ => Raise AttributeError
  end.

(** [v[0]]. *)
Definition py_index0 (v : json) : result json :=
  match v with
  | JArr (x :: _) => Ok x
  | JArr [] => Raise IndexError
  | JStr (String c _) => Ok (JStr (String c EmptyString))
  | JStr EmptyString => Raise IndexError
  | JObj _ => Raise KeyError        (* the keys are [str], never [0] *)
  | _ => Raise TypeError
  end.

Fixpoint chars (s : string) : list json :=
  match s with
  | EmptyString => []
  | String c rest => JStr (String c EmptyString) :: chars rest
  end.

(** The elements a [for] loop or a comprehension draws from [v]. *)
Definition py_iter (v : json) : result (list json) :=
  match v with
  | JArr xs => Ok xs
  | JStr s => Ok (chars s)
  | JObj items => Ok (map (fun kv => JStr (fst kv)) items)
  | _ => Raise TypeError
  end.

(** [len(v)]. *)
Definition py_len (v : json) : result nat :=
  match v with
  | JArr xs => Ok (List.length xs)
  | JStr s => Ok (String.length s)
  | JObj items => Ok (List.length items)
  | _ => Raise TypeError
  end.

(** [list] and [dict] are unhashable: they cannot be dictionary keys. *)
Definition hashable (v : json) : bool :=
  match v with
  | JArr _ | JObj _ => false
  | _ => true
  end.

(** A [dict] whose keys are arbitrary hashable objects, as the comprehension
    in [get_key_and_event_type] builds it.  The newest binding is kept in
    front, so that it shadows an older one with an equal key. *)
Definition pydict := list (json * json).

(** [m.get(k)] for a [str] key [k]: a [str] is equal to no object of another
    type, so only bindings whose key is that very string matter. *)
Fixpoint pydict_get (m : pydict) (k : string) : json :=
  match m with
  | [] => JNull
  | (JStr k', v) :: rest => if String.eqb k k' then v else pydict_get rest k
  | _ :: rest => pydict_get rest k
  end.

(** *** [pathlib.PurePosixPath] *)

(** [s.split("/")], accumulating the current component in [cur] (reversed
    order is avoided by appending). *)
Fixpoint split_slash (s cur : string) : list string :=
  match s with
  | EmptyString => [cur]
  | String c rest =>
      if Ascii.eqb c "/"%char then cur :: split_slash rest EmptyString
      else split_slash rest (cur ++ String c EmptyString)
  end.

(** The parsed components: empty components and ["."] are dropped. *)
Definition path_parts (s : string) : list string :=
  filter (fun x => negb (String.eqb x EmptyString || String.eqb x "."))
         (split_slash s EmptyString).

(** [PurePath.name]: the final component, or the empty string. *)
Definition path_name (s : string) : string := last (path_parts s) EmptyString.

(** [name.rfind(".")]: the position of the last dot, scanning from position
    [i]. *)
Fixpoint rfind_dot (s : string) (i : nat) : option nat :=
  match s with
  | EmptyString => None
  | String c rest =>
      match rfind_dot rest (S i) with
      | Some j => Some j
      | None => if Ascii.eqb c "."%char then Some i else None
      end
  end.

(** [PurePath.stem]: [name[:i]] when [0 < i < len(name) - 1] for the last
    dot [i], the whole name otherwise. *)
Definition stem_of_name (name : string) : string :=
  match rfind_dot name 0 with
  | Some i =>
      if ((0 <? i) && (i <? String.length name - 1))%nat
      then String.substring 0 i name
      else name
  | None => name
  end.

(** [Path(key).stem]: [Path] accepts a [str] (or a path object, which
    [json.loads] never produces) and raises [TypeError] otherwise. *)
Definition path_stem (key : json) : result string :=
  match key with
  | JStr s => Ok (stem_of_name (path_name s))
  | _ => Raise TypeError
  end.

(** *** [json.dumps] on a one-entry [dict] of strings *)

Definition dquote : string := String "034"%char EmptyString.

(** [json.dumps({k: v})] for [str] [k] and [v] made of printable ASCII
    without quote or backslash, which need no escape: the default
    separators put a space after the colon. *)
Definition json_dumps_pair (k v : string) : string :=
  "{" ++ dquote ++ k ++ dquote ++ ": " ++ dquote ++ v ++ dquote ++ "}".

End Py.

Import Py.

(* ------------------------------------------------------------------------- *)
(** ** Computations: a trace of outside events and an exception               *)
(* ------------------------------------------------------------------------- *)

Module Eff.

Section Monad.

Context {E : Type}.

(** A computation extends the trace of events of type [E] and returns a
    value or raises. *)
Definition M (A : Type) : Type := list E -> result A * list E.

Definition ret {A} (a : A) : M A := fun t => (Ok a, t).

Definition raise {A} (e : exn) : M A := fun t => (Raise e, t).

Definition bind {A B} (m : M A) (k : A -> M B) : M B :=
  fun t =>
    match m t with
    | (Ok a, t') => k a t'
    | (Raise e, t') => (Raise e, t')
    end.

Definition lift {A} (r : result A) : M A := fun t => (r, t).

Definition emit (e : E) : M unit := fun t => (Ok tt, t ++ [e]).

(** [try: m  except Exception as e: h e] *)
Definition try_except {A} (m : M A) (h : exn -> M A) : M A :=
  fun t =>
    match m t with
    | (Ok a, t') => (Ok a, t')
    | (Raise e, t') => h e t'
    end.

(** [try: m  finally: f]: [f] runs whatever [m] did; an exception of [f]
    replaces the outcome of [m]. *)
Definition try_finally {A} (m : M A) (f : M unit) : M A :=
  fun t =>
    match m t with
    | (r, t') =>
        match f t' with
        | (Ok _, t'') => (r, t'')
        | (Raise e, t'') => (Raise e, t'')
        end
    end.

(** [for x in xs: body(x)] *)
Fixpoint for_each {A} (xs : list A) (body : A -> M unit) : M unit :=
  match xs with
  | [] => ret tt
  | x :: rest => bind (body x) (fun _ => for_each rest body)
  end.

End Monad.

Arguments M E A : clear implicits.

Declare Scope py_scope.
Delimit Scope py_scope with py.
Notation "x <- m ;; k" := (bind m (fun x => k))
  (at level 61, m at next level, right associativity) : py_scope.
Notation "m ;; k" := (bind m (fun _ => k))
  (at level 61, right associativity) : py_scope.

End Eff.

Import Eff.
Open Scope py_scope.

(* ------------------------------------------------------------------------- *)
(** ** The DLQ status reporter: [eventbridge_dlq_handler.py]                  *)
(* ------------------------------------------------------------------------- *)

Module DlqHandler.

Inductive level : Type := INFO | ERROR | EXCEPTION.

(** A [urllib.request.Request] as the module fills it in: the URL, the body
    bytes, the method, and the headers in the order of the [add_header]
    calls (with the names as passed to [add_header]). *)
Record Request : Type := mkRequest {
  full_url : string;
  data : string;
  method : string;
  headers : list (string * string)
}.

(** What the handler does to the outside, in order. *)
Inductive event : Type :=
| Log (lvl : level) (msg : string)
| GetSecretValue (secret_id : option string)
| UrlOpen (req : Request) (timeout : Z).

Definition trace := list event.

(** How the management API answers one request. *)
Inductive exchange : Type :=
| Reply (code : Z) (body : string)
| NetworkError (reason : string)
| Failure (e : exn).

(** The process environment read at import time (lines 8-11):
    [ALB_BASE_URL] and [INGESTION_API_TOKEN_ARN] are required (without them
    the import fails and the handler never runs), [DOCS_API_PATH] and
    [ORIGIN_VERIFY_ARN] are read with [os.environ.get]. *)
Record environ : Type := mkEnviron {
  env_ALB_BASE_URL : string;
  env_DOCS_API_PATH : option string;
  env_INGESTION_API_TOKEN_ARN : string;
  env_ORIGIN_VERIFY_ARN : option string
}.

(** Everything outside the module.  [json_loads] is [json.loads] on a [str];
    [secretsmanager n id] answers the [n]-th [get_secret_value] call of the
    invocation with the [SecretString] of the response, if it has one;
    [request_Request url data method] is the constructor
    [request.Request(url, data=data, method=method)], which parses the URL
    and raises [ValueError] when it finds no scheme in it;
    [management_api n req] answers the [n]-th HTTP request. *)
Record world : Type := mkWorld {
  os_environ : environ;
  json_loads : string -> result json;
  secretsmanager : nat -> option string -> result (option string);
  request_Request : string -> string -> string -> result unit;
  management_api : nat -> Request -> exchange
}.

Definition M : Type -> Type := Eff.M event.

(** Modelled from the spec: the [logger] module ([log_info], [log_error],
    [log_exception]) is imported but is not among the sources.  A call
    records its level and message and returns; its keyword arguments, which
    only feed the log line, are not kept. *)
Definition log_info (msg : string) : M unit := emit (Log INFO msg).
Definition log_error (msg : string) : M unit := emit (Log ERROR msg).
Definition log_exception (msg : string) : M unit := emit (Log EXCEPTION msg).

Definition is_urlopen (e : event) : bool :=
  match e with UrlOpen _ _ => true | _ => false end.

Definition is_get_secret (e : event) : bool :=
  match e with GetSecretValue _ => true | _ => false end.

Definition is_2xx (code : Z) : bool := ((200 <=? code) && (code <? 300))%Z.

Section Handler.

Variable w : world.

Definition ALB_BASE_URL : string := env_ALB_BASE_URL (os_environ w).

Definition DOCS_API_PATH : string :=
  match env_DOCS_API_PATH (os_environ w) with
  | Some p => p
  | None => "/api/documents"
  end.

Definition TOKEN_SECRET_ARN : string := env_INGESTION_API_TOKEN_ARN (os_environ w).

Definition ORIGIN_VERIFY_ARN : option string := env_ORIGIN_VERIFY_ARN (os_environ w).

(** [secrets_client.get_secret_value(SecretId=id)] *)
Definition get_secret_value (id : option string) : M (option string) :=
  fun t =>
    (secretsmanager w (List.length (filter is_get_secret t)) id,
     t ++ [GetSecretValue id]).

(** [response["SecretString"]] *)
Definition secret_string (response : option string) : result string :=
  match response with
  | Some s => Ok s
  | None => Raise KeyError
  end.

(** [request.Request(url, data=data, method=method)]: the request object
    with no header yet, or the exception of the constructor. *)
Definition new_Request (url data method : string) : M Request :=
  lift (rbind (request_Request w url data method)
              (fun _ => Ok (mkRequest url data method []))).

(** [req.add_header(key, val)] *)
Definition add_header (req : Request) (key val : string) : Request :=
  mkRequest (full_url req) (data req) (method req) (headers req ++ [(key, val)]).

(** [request.urlopen(req, timeout=...)] followed by [resp.read()]: the
    default opener returns the response only for a 2xx status and raises
    [HTTPError] for every other status (it follows no redirect of a PATCH);
    a failure to reach the server is a [URLError].  Whatever else the call
    raises, up to the reading of the response, is a [Failure] of the world;
    the body of an [HTTPError] is taken to be readable. *)
Definition urlopen (req : Request) (timeout : Z) : M (Z * string) :=
  fun t =>
    let t' := t ++ [UrlOpen req timeout] in
    match management_api w (List.length (filter is_urlopen t)) req with
    | Reply code body =>
        if is_2xx code then (Ok (code, body), t')
        else (Raise (HTTPError code body), t')
    | NetworkError reason => (Raise (URLError reason), t')
    | Failure e => (Raise e, t')
    end.

Definition get_origin_verify_secret : M string :=
  log_info "Fetching Origin Verify Secret token from Secrets Manager" ;;
  try_except
    (response <- get_secret_value ORIGIN_VERIFY_ARN ;;
     log_info "Successfully fetched Origin Verify Secret" ;;
     lift (secret_string response))
    (fun e =>
       log_exception "Failed to fetch Origin Verify Secret from Secrets Manager" ;;
       raise e).

Definition get_ingestion_token : M string :=
  log_info "Fetching ingestion API token from Secrets Manager" ;;
  try_except
    (response <- get_secret_value (Some TOKEN_SECRET_ARN) ;;
     secret <- lift (secret_string response) ;;
     log_info "Successfully fetched ingestion API token" ;;
     ret secret)
    (fun e =>
       log_exception "Failed to fetch ingestion API token from Secrets Manager" ;;
       raise e).

(** The dict comprehension [{item.get("name"): item.get("value") for item in
    env_list}], binding by binding. *)
Fixpoint env_map_of (items : list json) (acc : pydict) : result pydict :=
  match items with
  | [] => Ok acc
  | item :: rest =>
      rbind (py_get item "name" JNull) (fun k =>
      rbind (py_get item "value" JNull) (fun v =>
      if hashable k then env_map_of rest ((k, v) :: acc)
      else Raise TypeError))
  end.

Definition get_key_and_event_type (overrides : json) : result (json * json) :=
  if negb (truthy overrides) then Ok (JNull, JNull)
  else
    rbind (py_index0 overrides) (fun first =>
    rbind (py_get first "environment" (JArr [])) (fun env_list =>
    rbind (py_iter env_list) (fun items =>
    rbind (env_map_of items []) (fun env_map =>
    Ok (pydict_get env_map "S3_OBJECT_KEY", pydict_get env_map "EVENT_TYPE"))))).

Definition py_eq_str (v : json) (s : string) : bool :=
  match v with
  | JStr s' => String.eqb s' s
  | _ => false
  end.

Definition status_from_event_type (event_type : json) : option string :=
  if py_eq_str event_type "Object Created" then Some "failed"
  else if py_eq_str event_type "Object Deleted" then Some "delete_failed"
  else None.

Definition patch_status (document_id status token origin_secret : string) : M unit :=
  let url := (ALB_BASE_URL ++ DOCS_API_PATH ++ "/" ++ document_id)%string in
  let body := json_dumps_pair "status" status in
  log_info "Patching document status via management-api" ;;
  req <- new_Request url body "PATCH" ;;
  let req := add_header req "Content-Type" "application/json" in
  let req := add_header req "x-api-token" token in
  let req := add_header req "X-Origin-Verify" origin_secret in
  try_except
    (resp <- urlopen req 30 ;;
     log_info "Patch status response")
    (fun e =>
       match e with
       | HTTPError _ _ =>
           log_error "HTTPError while patching document status" ;; raise e
       | URLError _ =>
           log_error "URLError while patching document status" ;; raise e
       | _ => raise e
       end).

Definition handle_run_task_dlq (payload : json) (token origin_secret : string) : M unit :=
  overrides <- lift (py_get payload "containerOverrides" (JArr [])) ;;
  ke <- lift (get_key_and_event_type overrides) ;;
  let '(key, event_type) := ke in
  if negb (truthy key) || negb (truthy event_type) then
    log_error "Missing S3_OBJECT_KEY or EVENT_TYPE in RunTask payload; skipping"
  else
    match status_from_event_type event_type with
    | None => log_error "Unknown EVENT_TYPE in RunTask payload; skipping"
    | Some status =>
        document_id <- lift (path_stem key) ;;
        log_info "Handling RunTask DLQ message" ;;
        patch_status document_id status token origin_secret
    end.

Definition handle_ecs_task_failure (payload : json) (token origin_secret : string) : M unit :=
  detail <- lift (py_get payload "detail" (JObj [])) ;;
  overrides_obj <- lift (py_get detail "overrides" (JObj [])) ;;
  overrides <- lift (py_get overrides_obj "containerOverrides" (JArr [])) ;;
  ke <- lift (get_key_and_event_type overrides) ;;
  let '(key, event_type) := ke in
  if negb (truthy key) || negb (truthy event_type) then
    log_error "Missing S3_OBJECT_KEY or EVENT_TYPE in ECS detail; skipping"
  else
    match status_from_event_type event_type with
    | None => log_error "Unknown EVENT_TYPE in ECS detail; skipping"
    | Some status =>
        document_id <- lift (path_stem key) ;;
        log_info "Handling ECS Task failure event" ;;
        patch_status document_id status token origin_secret
    end.

(** [k in v] *)
Definition py_contains (k : string) (v : json) : result bool :=
  match v with
  | JObj items =>
      Ok (match dict_lookup k items with Some _ => true | None => false end)
  | JArr xs => Ok (existsb (fun x => py_eq_str x k) xs)
  | JStr s => Ok (match String.index 0 k s with Some _ => true | None => false end)
  | _ => Raise TypeError
  end.

(** [json.loads(body)]: a [str] goes to the decoder, any other JSON value is
    rejected with [TypeError]. *)
Definition loads (body : json) : result json :=
  match body with
  | JStr s => json_loads w s
  | _ => Raise TypeError
  end.

(** The body of the [for record in records] loop (lines 190-214); each
    [continue] is the end of the body. *)
Definition process_record (token origin_secret : string) (record : json) : M unit :=
  body <- lift (py_get record "body" (JStr EmptyString)) ;;
  parsed <- try_except
              (payload <- lift (loads body) ;; ret (Some payload))
              (fun e =>
                 match e with
                 | JSONDecodeError =>
                     log_error "Bad JSON body in SQS message; skipping" ;;
                     ret None
                 | _ => raise e
                 end) ;;
  match parsed with
  | None => ret tt
  | Some payload =>
      detail_type <- lift (py_get payload "detail-type" JNull) ;;
      if py_eq_str detail_type "ECS Task State Change" then
        handle_ecs_task_failure payload token origin_secret
      else
        has_overrides <- lift (py_contains "containerOverrides" payload) ;;
        if (has_overrides : bool) then
          handle_run_task_dlq payload token origin_secret
        else
          log_error "Unrecognized payload shape; skipping"
  end.

Definition handler (event : json) : M unit :=
  records <- lift (py_get event "Records" (JArr [])) ;;
  record_count <- lift (py_len records) ;;
  log_info "Status DLQ Lambda invocation received" ;;
  if negb (truthy records) then
    log_info "No records in event; nothing to process"
  else
    token <- try_except get_ingestion_token
               (fun e =>
                  log_exception "Aborting batch: could not fetch ingestion token" ;;
                  raise e) ;;
    origin_secret <- try_except get_origin_verify_secret
               (fun e =>
                  log_exception "Aborting batch: could not fetch Origin Verify Secret" ;;
                  raise e) ;;
    items <- lift (py_iter records) ;;
    for_each items (process_record token origin_secret).

End Handler.

(** Running an invocation from the empty trace. *)
Definition run (w : world) (event : json) : result unit * trace :=
  handler w event [].

End DlqHandler.

(* ------------------------------------------------------------------------- *)
(** ** The extension initializer: [init-pgvector/src/index.py]                *)
(* ------------------------------------------------------------------------- *)

Module InitPgvector.

(** The keyword arguments of [psycopg2.connect]. *)
Record ConnectArgs : Type := mkConnectArgs {
  host : string;
  port : Z;
  database : string;
  user : string;
  password : string;
  connect_timeout : Z
}.

Inductive event : Type :=
| Boto3Client (service : string)
| GetSecretValue (secret_id : string)
| Connect (args : ConnectArgs)
| Cursor
| Execute (sql : string)
| CursorClose
| Commit
| Close.

Definition trace := list event.

Definition M : Type -> Type := Eff.M event.

(** Everything outside the module: the process environment, Secrets Manager
    and the database driver.  Each call is made at most once in an
    invocation, so one answer per call is all an invocation can see. *)
Record world : Type := mkWorld {
  os_environ : string -> option string;
  boto3_client : result unit;
  secretsmanager : string -> result (option string);
  psycopg2_connect : ConnectArgs -> result unit;
  conn_cursor : result unit;
  cursor_execute : string -> result unit;
  cursor_close : result unit;
  conn_commit : result unit;
  conn_close : result unit
}.

Section Handler.

Variable w : world.

(** [os.environ[name]] *)
Definition environ (name : string) : M string :=
  lift (match os_environ w name with
        | Some v => Ok v
        | None => Raise KeyError
        end).

(** A call to the outside: record it, then return or raise as the world
    answers. *)
Definition call {A} (e : event) (answer : result A) : M A :=
  fun t => (answer, t ++ [e]).

(** [with mgr as c: body]: the context manager of a [psycopg2] cursor closes
    the cursor on the way out and lets an exception of the body through. *)
Definition with_cursor {A} (body : unit -> M A) : M A :=
  cursor <- call Cursor (conn_cursor w) ;;
  try_finally (body cursor) (call CursorClose (cursor_close w)).

Definition handler (event context : json) : M unit :=
  call (Boto3Client "secretsmanager") (boto3_client w) ;;
  secret_id <- environ "DB_PASSWORD_SECRET_ARN" ;;
  response <- call (GetSecretValue secret_id) (secretsmanager w secret_id) ;;
  password <- lift (match response with
                    | Some s => Ok s
                    | None => Raise KeyError
                    end) ;;
  db_host <- environ "DB_ENDPOINT" ;;
  db_name <- environ "DB_NAME" ;;
  db_user <- environ "DB_USER" ;;
  let args := mkConnectArgs db_host 5432 db_name db_user password 30 in
  call (Connect args) (psycopg2_connect w args) ;;
  try_finally
    (with_cursor (fun cursor =>
       call (Execute "CREATE EXTENSION IF NOT EXISTS vector;")
            (cursor_execute w "CREATE EXTENSION IF NOT EXISTS vector;")) ;;
     call Commit (conn_commit w))
    (call Close (conn_close w)).

End Handler.

Definition run (w : world) (event context : json) : result unit * trace :=
  handler w event context [].

End InitPgvector.

(* ------------------------------------------------------------------------- *)
(** ** The vocabulary of the specification of the DLQ status reporter        *)
(* ------------------------------------------------------------------------- *)

Import DlqHandler.

(** The HTTP requests issued in a trace, in order. *)
Definition requests (t : trace) : list Request :=
  flat_map (fun e => match e with UrlOpen r _ => [r] | _ => [] end) t.

(** The secret identifiers fetched in a trace, in order. *)
Definition secret_fetches (t : trace) : list (option string) :=
  flat_map (fun e => match e with GetSecretValue id => [id] | _ => [] end) t.

Definition is_log (e : event) : bool :=
  match e with Log _ _ => true | _ => false end.

(** What the outside sees of a trace: everything but the log lines. *)
Definition effects (t : trace) : trace := filter (fun e => negb (is_log e)) t.

(** The SQS event of a batch of records. *)
Definition sqs_event (records : list json) : json :=
  JObj [("Records", JArr records)].

(** The SQS record of a message body. *)
Definition sqs_record (body : string) : json := JObj [("body", JStr body)].

(** [record] is a message whose body [json.loads] decodes to [payload]. *)
Definition message_payload (w : world) (record payload : json) : Prop :=
  exists s, py_get record "body" (JStr EmptyString) = Ok (JStr s) /\
            json_loads w s = Ok payload.

(** [record] is a message whose body is not JSON. *)
Definition bad_json_body (w : world) (record : json) : Prop :=
  exists s, py_get record "body" (JStr EmptyString) = Ok (JStr s) /\
            json_loads w s = Raise JSONDecodeError.

Definition ECS_TASK_STATE_CHANGE : string := "ECS Task State Change".

(** The container overrides that the classification of section 4.2 selects
    from a payload: those under [detail.overrides] for a task-state-change
    event, the top-level ones otherwise. *)
Inductive overrides_of : json -> json -> Prop :=
| overrides_ecs items detail overrides ovs :
    dict_lookup "detail-type" items = Some (JStr ECS_TASK_STATE_CHANGE) ->
    dict_lookup "detail" items = Some (JObj detail) ->
    dict_lookup "overrides" detail = Some (JObj overrides) ->
    dict_lookup "containerOverrides" overrides = Some ovs ->
    overrides_of (JObj items) ovs
| overrides_run_task items ovs :
    dict_lookup "detail-type" items <> Some (JStr ECS_TASK_STATE_CHANGE) ->
    dict_lookup "containerOverrides" items = Some ovs ->
    overrides_of (JObj items) ovs.

(** An entry of an environment list: an object whose name can be a
    dictionary key. *)
Definition env_item_ok (item : json) : Prop :=
  exists fields, item = JObj fields /\
    hashable (match dict_lookup "name" fields with Some n => n | None => JNull end) = true.

(** The value an environment list gives to [name]: that of the last entry
    with this name ([None] when no entry has it; an entry without a value
    gives [JNull]). *)
Fixpoint env_value (name : string) (env : list json) : option json :=
  match env with
  | [] => None
  | item :: rest =>
      match env_value name rest with
      | Some v => Some v
      | None =>
          match item with
          | JObj fields =>
              match dict_lookup "name" fields with
              | Some (JStr n) =>
                  if String.eqb name n
                  then Some (match dict_lookup "value" fields with
                             | Some v => v
                             | None => JNull
                             end)
                  else None
              | _ => None
              end
          | _ => None
          end
      end
  end.

(** The environment list of an override. *)
Definition environment_of (override : json) (env : list json) : Prop :=
  exists fields, override = JObj fields /\
    match dict_lookup "environment" fields with
    | Some e => e = JArr env
    | None => env = []
    end /\
    Forall env_item_ok env.

(** Both values can be extracted from the selected overrides: the first
    container override has an environment list that gives [S3_OBJECT_KEY]
    the non-empty string [key] and [EVENT_TYPE] the recognized type [et]. *)
Definition extractable (ovs : json) (key et : string) : Prop :=
  exists first rest env,
    ovs = JArr (first :: rest) /\
    environment_of first env /\
    env_value "S3_OBJECT_KEY" env = Some (JStr key) /\ key <> EmptyString /\
    env_value "EVENT_TYPE" env = Some (JStr et) /\
    (et = "Object Created" \/ et = "Object Deleted").

(** Both values can be extracted from the payload. *)
Definition reportable (payload : json) (key et : string) : Prop :=
  exists ovs, overrides_of payload ovs /\ extractable ovs key et.

(** Both values stand in the environment list of some container override. *)
Definition carried_by_some_override (payload : json) (key et : string) : Prop :=
  exists ovs o env,
    overrides_of payload (JArr ovs) /\ In o ovs /\
    environment_of o env /\
    env_value "S3_OBJECT_KEY" env = Some (JStr key) /\ key <> EmptyString /\
    env_value "EVENT_TYPE" env = Some (JStr et) /\
    (et = "Object Created" \/ et = "Object Deleted").

(** The status reported for a recognized event type. *)
Definition status_of (et : string) : string :=
  if String.eqb et "Object Created" then "failed" else "delete_failed".

(** The request of section 6 for a document and a status. *)
Definition patch_request (w : world) (document_id status token origin_secret : string) : Request :=
  mkRequest (ALB_BASE_URL w ++ DOCS_API_PATH w ++ "/" ++ document_id)%string
            (json_dumps_pair "status" status)
            "PATCH"
            [("Content-Type", "application/json");
             ("x-api-token", token);
             ("X-Origin-Verify", origin_secret)].

(** What the constructor of line 69 answers for a request: [Ok] when
    [urllib] accepts its URL. *)
Definition accepts (w : world) (req : Request) : result unit :=
  request_Request w (full_url req) (data req) (method req).

(** The code the two handlers share once the overrides are selected (lines
    105-130 and 137-162 differ in their log messages only). *)
Definition report_from (w : world) (missing unknown handling : string)
    (overrides : json) (token origin_secret : string) : M unit :=
  ke <- lift (get_key_and_event_type overrides) ;;
  let '(key, event_type) := ke in
  if negb (truthy key) || negb (truthy event_type) then log_error missing
  else
    match status_from_event_type event_type with
    | None => log_error unknown
    | Some status =>
        document_id <- lift (path_stem key) ;;
        log_info handling ;;
        patch_status w document_id status token origin_secret
    end.

Definition report_from_run_task (w : world) : json -> string -> string -> M unit :=
  report_from w "Missing S3_OBJECT_KEY or EVENT_TYPE in RunTask payload; skipping"
                "Unknown EVENT_TYPE in RunTask payload; skipping"
                "Handling RunTask DLQ message".

Definition report_from_ecs (w : world) : json -> string -> string -> M unit :=
  report_from w "Missing S3_OBJECT_KEY or EVENT_TYPE in ECS detail; skipping"
                "Unknown EVENT_TYPE in ECS detail; skipping"
                "Handling ECS Task failure event".

(** How the exchange for a request ends in an exception. *)
Inductive patch_fails : exchange -> exn -> Prop :=
| fails_network reason : patch_fails (NetworkError reason) (URLError reason)
| fails_status code body :
    is_2xx code = false -> patch_fails (Reply code body) (HTTPError code body).

(** The value [name] has in the dictionary built from [env] on top of [acc]. *)
Definition value_in (name : string) (env : list json) (acc : pydict) : json :=
  match env_value name env with
  | Some v => v
  | None => pydict_get acc name
  end.

Definition env_or_null (name : string) (env : list json) : json :=
  match env_value name env with Some v => v | None => JNull end.

(** The log line that follows a request ending in [e]. *)
Definition patch_log (e : exn) : trace :=
  match e with
  | HTTPError _ _ => [Log ERROR "HTTPError while patching document status"]
  | URLError _ => [Log ERROR "URLError while patching document status"]
  | _ => []
  end.

(** The end of [patch_status] once the exchange is known. *)
Definition patch_outcome (x : exchange) : result unit * trace :=
  match x with
  | Reply code body =>
      if is_2xx code then (Ok tt, [Log INFO "Patch status response"])
      else (Raise (HTTPError code body), patch_log (HTTPError code body))
  | NetworkError reason => (Raise (URLError reason), patch_log (URLError reason))
  | Failure e => (Raise e, patch_log e)
  end.

(** The overrides [handle_ecs_task_failure] reads (lines 134-135). *)
Definition ecs_path (payload : json) : result json :=
  rbind (py_get payload "detail" (JObj [])) (fun detail =>
  rbind (py_get detail "overrides" (JObj [])) (fun overrides =>
  py_get overrides "containerOverrides" (JArr []))).

(** An environment list gives [name] no usable value: no entry has the name,
    or the last one has the empty string. *)
Definition missing (name : string) (env : list json) : Prop :=
  env_value name env = None \/ env_value name env = Some (JStr EmptyString).

(** The payload has the [detail-type] of a task-state-change event. *)
Definition is_task_state_change (payload : json) : Prop :=
  exists items, payload = JObj items /\
    dict_lookup "detail-type" items = Some (JStr ECS_TASK_STATE_CHANGE).

(** The payload has a top-level [containerOverrides] key. *)
Definition has_container_overrides (payload : json) : Prop :=
  exists items ovs, payload = JObj items /\
    dict_lookup "containerOverrides" items = Some ovs.

(** The three-way classification of section 4.2 for the record of a decoded
    payload: the branch is fixed by the two tests in this order, the overrides
    come from [detail.overrides.containerOverrides] in the first branch and
    from the top level in the second, and the third logs and skips. *)
Definition classified (w : world) (tok orig : string) (record payload : json)
    (t : trace) : Prop :=
  let out := process_record w tok orig record t in
  (is_task_state_change payload /\
   out = handle_ecs_task_failure w payload tok orig t /\
   forall items detail overrides ovs,
     payload = JObj items ->
     dict_lookup "detail" items = Some (JObj detail) ->
     dict_lookup "overrides" detail = Some (JObj overrides) ->
     dict_lookup "containerOverrides" overrides = Some ovs ->
     out = report_from_ecs w ovs tok orig t)
  \/
  (~ is_task_state_change payload /\ has_container_overrides payload /\
   out = handle_run_task_dlq w payload tok orig t /\
   forall items ovs,
     payload = JObj items ->
     dict_lookup "containerOverrides" items = Some ovs ->
     out = report_from_run_task w ovs tok orig t)
  \/
  (~ is_task_state_change payload /\ ~ has_container_overrides payload /\
   out = (Ok tt, t ++ [Log ERROR "Unrecognized payload shape; skipping"])).

(** The exception an exchange ends in, if any. *)
Definition failure_of (x : exchange) : option exn :=
  match x with
  | Reply code body => if is_2xx code then None else Some (HTTPError code body)
  | NetworkError reason => Some (URLError reason)
  | Failure e => Some e
  end.

(** The first request of a trace that ends in an exception, with that
    exception and the events after the request; [n] requests precede the
    trace. *)
Fixpoint after_failure (w : world) (n : nat) (t : trace) : option (exn * trace) :=
  match t with
  | [] => None
  | UrlOpen req _ :: rest =>
      match failure_of (management_api w n req) with
      | Some e => Some (e, rest)
      | None => after_failure w (S n) rest
      end
  | _ :: rest => after_failure w n rest
  end.

(** One fetch of a secret: the call and the [SecretString] of its response. *)
Definition fetch (w : world) (n : nat) (id : option string) : result string :=
  rbind (secretsmanager w n id) secret_string.

(** Both secrets were fetched, each once, the ingestion token first. *)
Definition each_fetched_once (w : world) (t : trace) : Prop :=
  secret_fetches t = [Some (TOKEN_SECRET_ARN w); ORIGIN_VERIFY_ARN w].

(** Two traces with as many requests and as many secret fetches. *)
Definition same_counts (t1 t2 : trace) : Prop :=
  List.length (requests t1) = List.length (requests t2) /\
  List.length (secret_fetches t1) = List.length (secret_fetches t2).

(** A computation that, on two such traces, returns the same result and
    appends the same events. *)
Definition framed {A} (m : M A) : Prop :=
  forall t1 t2, same_counts t1 t2 ->
    exists r d, m t1 = (r, t1 ++ d) /\ m t2 = (r, t2 ++ d).

(* ------------------------------------------------------------------------- *)
(** ** Concrete messages and worlds                                           *)
(* ------------------------------------------------------------------------- *)

Module Examples.

(** A JSON string literal without escapes. *)
Definition q (s : string) : string := dquote ++ s ++ dquote.

(** The text and the value of a name/value entry of an environment list. *)
Definition item_text (name value : string) : string :=
  "{" ++ q "name" ++ ":" ++ q name ++ "," ++ q "value" ++ ":" ++ q value ++ "}".

Definition item (name value : string) : json :=
  JObj [("name", JStr name); ("value", JStr value)].

(** A task-state-change event with one override, as in section 8. *)
Definition ecs_text (key et : string) : string :=
  "{" ++ q "detail-type" ++ ":" ++ q "ECS Task State Change" ++ ","
      ++ q "detail" ++ ":{" ++ q "overrides" ++ ":{" ++ q "containerOverrides"
      ++ ":[{" ++ q "environment" ++ ":["
      ++ item_text "S3_OBJECT_KEY" key ++ "," ++ item_text "EVENT_TYPE" et
      ++ "]}]}}}".

Definition ecs_payload (key et : string) : json :=
  JObj [("detail-type", JStr "ECS Task State Change");
        ("detail",
         JObj [("overrides",
                JObj [("containerOverrides",
                       JArr [JObj [("environment",
                                    JArr [item "S3_OBJECT_KEY" key;
                                          item "EVENT_TYPE" et])]])])])].

(** A run-task payload whose first override has an empty environment list
    and whose second override carries both values. *)
Definition second_override_text : string :=
  "{" ++ q "containerOverrides" ++ ":[{" ++ q "environment" ++ ":[]},{"
      ++ q "environment" ++ ":["
      ++ item_text "S3_OBJECT_KEY" "foo/bar.txt" ++ ","
      ++ item_text "EVENT_TYPE" "Object Created" ++ "]}]}".

Definition second_override_payload : json :=
  JObj [("containerOverrides",
         JArr [JObj [("environment", JArr [])];
               JObj [("environment",
                      JArr [item "S3_OBJECT_KEY" "foo/bar.txt";
                            item "EVENT_TYPE" "Object Created"])]])].

(** A run-task payload whose object key is the empty string. *)
Definition empty_key_text : string :=
  "{" ++ q "containerOverrides" ++ ":[{" ++ q "environment" ++ ":["
      ++ item_text "S3_OBJECT_KEY" EmptyString ++ ","
      ++ item_text "EVENT_TYPE" "Object Deleted" ++ "]}]}".

Definition empty_key_payload : json :=
  JObj [("containerOverrides",
         JArr [JObj [("environment",
                      JArr [item "S3_OBJECT_KEY" EmptyString;
                            item "EVENT_TYPE" "Object Deleted"])]])].

(** A payload of neither shape. *)
Definition other_text : string := "{" ++ q "source" ++ ":" ++ q "aws.s3" ++ "}".

Definition other_payload : json := JObj [("source", JStr "aws.s3")].

(** What [json.loads] returns on the texts above and on the empty array;
    every other text used below is not JSON. *)
Definition decoded : list (string * json) :=
  [(ecs_text "foo/bar.txt" "Object Created", ecs_payload "foo/bar.txt" "Object Created");
   (ecs_text "docs/a.pdf" "Object Deleted", ecs_payload "docs/a.pdf" "Object Deleted");
   (ecs_text "docs/a.pdf" "Object Restored", ecs_payload "docs/a.pdf" "Object Restored");
   (second_override_text, second_override_payload);
   (empty_key_text, empty_key_payload);
   (other_text, other_payload);
   ("[]", JArr [])].

Definition example_loads (s : string) : result json :=
  match dict_lookup s decoded with
  | Some p => Ok p
  | None => Raise JSONDecodeError
  end.

Definition example_environ : environ :=
  mkEnviron "https://alb.internal" None "arn:ingestion-token" (Some "arn:origin-verify").

(** The test of [urllib] for the scheme of a URL, on a URL without [#],
    surrounding blanks, angle brackets or a [URL:] prefix: the text before
    the first [/] or [:] is not empty and ends at a [:]. *)
Fixpoint scheme_ends (url : string) (seen : bool) : bool :=
  match url with
  | EmptyString => false
  | String c rest =>
      if Ascii.eqb c ":"%char then seen
      else if Ascii.eqb c "/"%char then false
      else scheme_ends rest true
  end.

Definition has_scheme (url : string) : bool := scheme_ends url false.

(** The constructor of a request on such URLs. *)
Definition example_Request (url data method : string) : result unit :=
  if has_scheme url then Ok tt else Raise ValueError.

(** Secrets Manager holding both secrets. *)
Definition example_secrets (n : nat) (id : option string) : result (option string) :=
  match id with
  | Some arn =>
      if String.eqb arn "arn:ingestion-token" then Ok (Some "token-1")
      else if String.eqb arn "arn:origin-verify" then Ok (Some "origin-1")
      else Raise (OtherError "ResourceNotFoundException")
  | None => Raise (OtherError "ParamValidationError")
  end.

(** A world in which every request is answered with 200. *)
Definition healthy : world :=
  mkWorld example_environ example_loads example_secrets example_Request
          (fun _ _ => Reply 200 "ok").

(** A world in which the management API cannot be reached. *)
Definition unreachable : world :=
  mkWorld example_environ example_loads example_secrets example_Request
          (fun _ _ => NetworkError "timed out").

(** A world in which the management API answers 500. *)
Definition failing : world :=
  mkWorld example_environ example_loads example_secrets example_Request
          (fun _ _ => Reply 500 "Internal Server Error").

(** A world in which Secrets Manager refuses every call. *)
Definition no_secrets : world :=
  mkWorld example_environ example_loads
          (fun _ _ => Raise (OtherError "AccessDeniedException"))
          example_Request
          (fun _ _ => Reply 200 "ok").

(** The healthy world when [ALB_BASE_URL] is set to a bare host name. *)
Definition no_scheme : world :=
  mkWorld (mkEnviron "alb.internal" None "arn:ingestion-token" (Some "arn:origin-verify"))
          example_loads example_secrets example_Request
          (fun _ _ => Reply 200 "ok").

End Examples.

(* ------------------------------------------------------------------------- *)
(** ** The vocabulary of the specification of the initializer                *)
(* ------------------------------------------------------------------------- *)

Module PgvectorSpec.

Import InitPgvector.

Definition CREATE_EXTENSION : string := "CREATE EXTENSION IF NOT EXISTS vector;".

Definition is_close (e : event) : bool :=
  match e with Close => true | _ => false end.

(** How many times the connection is closed in a trace. *)
Definition closes (t : trace) : nat := List.length (filter is_close t).

(** The last event of a trace. *)
Definition last_event (t : trace) : option event :=
  match t with
  | [] => None
  | e :: rest => Some (last rest e)
  end.

(** A database on which every call succeeds, behind an environment that
    defines the four variables. *)
Definition example_environ (name : string) : option string :=
  if String.eqb name "DB_PASSWORD_SECRET_ARN" then Some "arn:db-password"
  else if String.eqb name "DB_ENDPOINT" then Some "db.internal"
  else if String.eqb name "DB_NAME" then Some "burrow"
  else if String.eqb name "DB_USER" then Some "postgres"
  else None.

Definition healthy : world :=
  mkWorld example_environ (Ok tt) (fun _ => Ok (Some "s3cret")) (fun _ => Ok tt)
          (Ok tt) (fun _ => Ok tt) (Ok tt) (Ok tt) (Ok tt).

(** The same database when the role may not create extensions. *)
Definition no_privilege : world :=
  mkWorld example_environ (Ok tt) (fun _ => Ok (Some "s3cret")) (fun _ => Ok tt)
          (Ok tt) (fun _ => Raise (OtherError "InsufficientPrivilege"))
          (Ok tt) (Ok tt) (Ok tt).

(** The same database when the commit is refused. *)
Definition no_commit : world :=
  mkWorld example_environ (Ok tt) (fun _ => Ok (Some "s3cret")) (fun _ => Ok tt)
          (Ok tt) (fun _ => Ok tt) (Ok tt)
          (Raise (OtherError "OperationalError")) (Ok tt).

Definition example_args : ConnectArgs :=
  mkConnectArgs "db.internal" 5432 "burrow" "postgres" "s3cret" 30.

(** Closing the connection after the block ended in [r] with events [evs]. *)
Definition released (w : world) (r : result unit) (evs : trace) : result unit * trace :=
  match conn_close w with
  | Ok _ => (r, evs ++ [Close])
  | Raise e => (Raise e, evs ++ [Close])
  end.

(** Lines 23-28 from the answers of the driver: the result of the invocation
    and the events after [Connect]. *)
Definition transaction (w : world) : result unit * trace :=
  match conn_cursor w with
  | Raise e => released w (Raise e) [Cursor]
  | Ok _ =>
      match cursor_execute w CREATE_EXTENSION, cursor_close w with
      | _, Raise e' =>
          released w (Raise e') [Cursor; Execute CREATE_EXTENSION; CursorClose]
      | Raise e, Ok _ =>
          released w (Raise e) [Cursor; Execute CREATE_EXTENSION; CursorClose]
      | Ok _, Ok _ =>
          match conn_commit w with
          | Raise e =>
              released w (Raise e)
                       [Cursor; Execute CREATE_EXTENSION; CursorClose; Commit]
          | Ok _ =>
              released w (Ok tt)
                       [Cursor; Execute CREATE_EXTENSION; CursorClose; Commit]
          end
      end
  end.

End PgvectorSpec.

(* ------------------------------------------------------------------------- *)
(** ** Further vocabulary: document identifiers and batches                    *)
(* ------------------------------------------------------------------------- *)

(** [c in s] for a character [c]. *)
Fixpoint contains_char (c : ascii) (s : string) : bool :=
  match s with
  | EmptyString => false
  | String c' rest => Ascii.eqb c c' || contains_char c rest
  end.

(** The requests a record stands for: the one report of a reportable
    message, none for any other record. *)
Definition report_of (w : world) (tok orig : string) (record : json)
    (reqs : list Request) : Prop :=
  (exists payload key et,
      message_payload w record payload /\ reportable payload key et /\
      reqs = [patch_request w (stem_of_name (path_name key)) (status_of et) tok orig])
  \/
  ((forall payload key et,
       message_payload w record payload -> ~ reportable payload key et) /\
   reqs = []).

(** The requests a record can issue at all: none, or the report of its
    message. *)
Definition may_report (w : world) (tok orig : string) (record : json)
    (reqs : list Request) : Prop :=
  reqs = [] \/
  exists payload key et,
    message_payload w record payload /\ reportable payload key et /\
    reqs = [patch_request w (stem_of_name (path_name key)) (status_of et) tok orig].

(** What a comprehension draws from the value of [environment]: the
    elements of a list, nothing from an empty string or an empty object. *)
Definition iterable_as (v : json) (items : list json) : Prop :=
  v = JArr items \/ (items = [] /\ (v = JStr EmptyString \/ v = JObj [])).

(** The overrides on which [get_key_and_event_type] returns: a falsy value,
    or a list whose first element is an object with an environment of
    entries that are objects with hashable names. *)
Definition extraction_defined (ovs : json) : Prop :=
  truthy ovs = false \/
  exists fields rest items,
    ovs = JArr (JObj fields :: rest) /\
    iterable_as (match dict_lookup "environment" fields with
                 | Some e => e
                 | None => JArr []
                 end) items /\
    Forall env_item_ok items.

(** Further messages. *)
Module MoreExamples.

(** A task-state-change event without a [detail] key. *)
Definition bare_ecs_text : string :=
  "{" ++ Examples.q "detail-type" ++ ":" ++ Examples.q "ECS Task State Change" ++ "}".

Definition bare_ecs_payload : json :=
  JObj [("detail-type", JStr "ECS Task State Change")].

(** A task-state-change event whose [detail] is [null]. *)
Definition null_detail_text : string :=
  "{" ++ Examples.q "detail-type" ++ ":" ++ Examples.q "ECS Task State Change" ++ ","
      ++ Examples.q "detail" ++ ":null}".

Definition null_detail_payload : json :=
  JObj [("detail-type", JStr "ECS Task State Change"); ("detail", JNull)].

(** A run-task payload with one override. *)
Definition run_task_text (key et : string) : string :=
  "{" ++ Examples.q "containerOverrides" ++ ":[{" ++ Examples.q "environment" ++ ":["
      ++ Examples.item_text "S3_OBJECT_KEY" key ++ ","
      ++ Examples.item_text "EVENT_TYPE" et ++ "]}]}".

Definition run_task_payload (key et : string) : json :=
  JObj [("containerOverrides",
         JArr [JObj [("environment",
                      JArr [Examples.item "S3_OBJECT_KEY" key;
                            Examples.item "EVENT_TYPE" et])]])].

(** A run-task payload whose first override is [null] and whose second
    override carries both values. *)
Definition null_first_text : string :=
  "{" ++ Examples.q "containerOverrides" ++ ":[null,{" ++ Examples.q "environment" ++ ":["
      ++ Examples.item_text "S3_OBJECT_KEY" "foo/bar.txt" ++ ","
      ++ Examples.item_text "EVENT_TYPE" "Object Created" ++ "]}]}".

Definition null_first_payload : json :=
  JObj [("containerOverrides",
         JArr [JNull;
               JObj [("environment",
                      JArr [Examples.item "S3_OBJECT_KEY" "foo/bar.txt";
                            Examples.item "EVENT_TYPE" "Object Created"])]])].

Definition decoded : list (string * json) :=
  [(bare_ecs_text, bare_ecs_payload);
   (null_detail_text, null_detail_payload);
   (run_task_text "foo/bar.txt" "Object Created",
    run_task_payload "foo/bar.txt" "Object Created");
   (null_first_text, null_first_payload)]
  ++ Examples.decoded.

Definition example_loads (s : string) : result json :=
  match dict_lookup s decoded with
  | Some p => Ok p
  | None => Raise JSONDecodeError
  end.

(** The healthy world of [Examples] with the further messages. *)
Definition healthy : world :=
  mkWorld Examples.example_environ example_loads Examples.example_secrets
          Examples.example_Request (fun _ _ => Reply 200 "ok").

End MoreExamples.

(* ------------------------------------------------------------------------- *)
(** ** The embedding on small inputs                                          *)
(* ------------------------------------------------------------------------- *)

Example stem_documents : path_stem (JStr "documents/abc123.pdf") = Ok "abc123".
Proof. reflexivity. Qed.

Example stem_last_suffix_only : path_stem (JStr "a/b/archive.tar.gz") = Ok "archive.tar".
Proof. reflexivity. Qed.

Example stem_hidden_file : path_stem (JStr "dir/.env") = Ok ".env".
Proof. reflexivity. Qed.

Example stem_trailing_slash : path_stem (JStr "foo/bar.txt/") = Ok "bar".
Proof. reflexivity. Qed.

Example stem_of_a_number : path_stem (JInt 5) = Raise TypeError.
Proof. reflexivity. Qed.

Example dumps_status_failed :
  json_dumps_pair "status" "failed"
  = ("{" ++ dquote ++ "status" ++ dquote ++ ": " ++ dquote ++ "failed" ++ dquote ++ "}")%string.
Proof. reflexivity. Qed.

Example extraction_last_entry_wins :
  get_key_and_event_type
    (JArr [JObj [("environment",
                  JArr [Examples.item "EVENT_TYPE" "Object Created";
                        Examples.item "S3_OBJECT_KEY" "a/b.txt";
                        Examples.item "EVENT_TYPE" "Object Deleted"])]])
  = Ok (JStr "a/b.txt", JStr "Object Deleted").
Proof. reflexivity. Qed.

Example extraction_of_null : get_key_and_event_type JNull = Ok (JNull, JNull).
Proof. reflexivity. Qed.

Example extraction_of_a_string : get_key_and_event_type (JStr "abc") = Raise AttributeError.
Proof. reflexivity. Qed.

Example extraction_of_an_object :
  get_key_and_event_type (JObj [("environment", JArr [])]) = Raise KeyError.
Proof. reflexivity. Qed.

Example extraction_unhashable_name :
  get_key_and_event_type
    (JArr [JObj [("environment", JArr [JObj [("name", JArr []); ("value", JStr "x")]])]])
  = Raise TypeError.
Proof. reflexivity. Qed.

Example loads_of_the_example :
  Examples.example_loads (Examples.ecs_text "foo/bar.txt" "Object Created")
  = Ok (Examples.ecs_payload "foo/bar.txt" "Object Created").
Proof. reflexivity. Qed.

Example run_of_the_example :
  run Examples.healthy
      (sqs_event [sqs_record (Examples.ecs_text "foo/bar.txt" "Object Created")])
  = (Ok tt,
     [Log INFO "Status DLQ Lambda invocation received";
      Log INFO "Fetching ingestion API token from Secrets Manager";
      GetSecretValue (Some "arn:ingestion-token");
      Log INFO "Successfully fetched ingestion API token";
      Log INFO "Fetching Origin Verify Secret token from Secrets Manager";
      GetSecretValue (Some "arn:origin-verify");
      Log INFO "Successfully fetched Origin Verify Secret";
      Log INFO "Handling ECS Task failure event";
      Log INFO "Patching document status via management-api";
      UrlOpen (patch_request Examples.healthy "bar" "failed" "token-1" "origin-1") 30;
      Log INFO "Patch status response"]).
Proof. reflexivity. Qed.

Example scheme_of_the_example :
  Examples.has_scheme "https://alb.internal/api/documents/bar" = true.
Proof. reflexivity. Qed.

Example scheme_of_a_bare_host :
  Examples.has_scheme "alb.internal/api/documents/bar" = false.
Proof. reflexivity. Qed.

Example run_without_a_scheme :
  run Examples.no_scheme
      (sqs_event [sqs_record (Examples.ecs_text "foo/bar.txt" "Object Created")])
  = (Raise ValueError,
     [Log INFO "Status DLQ Lambda invocation received";
      Log INFO "Fetching ingestion API token from Secrets Manager";
      GetSecretValue (Some "arn:ingestion-token");
      Log INFO "Successfully fetched ingestion API token";
      Log INFO "Fetching Origin Verify Secret token from Secrets Manager";
      GetSecretValue (Some "arn:origin-verify");
      Log INFO "Successfully fetched Origin Verify Secret";
      Log INFO "Handling ECS Task failure event";
      Log INFO "Patching document status via management-api"]).
Proof. reflexivity. Qed.

Example run_of_a_null_batch :
  run Examples.healthy (JObj [("Records", JNull)]) = (Raise TypeError, []).
Proof. reflexivity. Qed.

(* ------------------------------------------------------------------------- *)
(** ** Lemmas on traces and on the extraction of the two fields               *)
(* ------------------------------------------------------------------------- *)

Lemma requests_app (t1 t2 : trace) : requests (t1 ++ t2) = requests t1 ++ requests t2.
Proof. unfold requests. apply flat_map_app. Qed.

Lemma secret_fetches_app (t1 t2 : trace) :
  secret_fetches (t1 ++ t2) = secret_fetches t1 ++ secret_fetches t2.
Proof. unfold secret_fetches. apply flat_map_app. Qed.

Lemma effects_app (t1 t2 : trace) : effects (t1 ++ t2) = effects t1 ++ effects t2.
Proof. unfold effects. apply filter_app. Qed.

Lemma count_urlopen (t : trace) :
  List.length (filter is_urlopen t) = List.length (requests t).
Proof.
  induction t as [|e t IH]; [reflexivity|].
  destruct e; simpl; auto.
Qed.

Lemma count_get_secret (t : trace) :
  List.length (filter is_get_secret t) = List.length (secret_fetches t).
Proof.
  induction t as [|e t IH]; [reflexivity|].
  destruct e; simpl; auto.
Qed.

Lemma requests_effects (t : trace) : requests (effects t) = requests t.
Proof.
  induction t as [|e t IH]; [reflexivity|].
  destruct e; simpl; rewrite ?IH; reflexivity.
Qed.

Lemma secret_fetches_effects (t : trace) : secret_fetches (effects t) = secret_fetches t.
Proof.
  induction t as [|e t IH]; [reflexivity|].
  destruct e; simpl; rewrite ?IH; reflexivity.
Qed.

Lemma env_map_of_ok (env : list json) :
  Forall env_item_ok env ->
  forall acc, exists m,
    env_map_of env acc = Ok m /\
    forall name, pydict_get m name = value_in name env acc.
Proof.
  induction 1 as [|item env Hitem _ IH]; intros acc.
  - exists acc. split; [reflexivity|]. intros name. reflexivity.
  - destruct Hitem as [fields [-> Hhash]]. simpl.
    set (k := match dict_lookup "name" fields with Some n => n | None => JNull end) in *.
    set (v := match dict_lookup "value" fields with Some x => x | None => JNull end).
    rewrite Hhash.
    destruct (IH ((k, v) :: acc)) as [m [Hm Hget]].
    exists m. split; [exact Hm|].
    intros name. rewrite Hget. unfold value_in. simpl.
    destruct (env_value name env) as [x|]; [reflexivity|].
    subst k v.
    destruct (dict_lookup "name" fields) as [[| | | |n| |]|]; simpl; try reflexivity.
    destruct (String.eqb name n); reflexivity.
Qed.

Lemma env_map_of_inv (env : list json) :
  forall acc m, env_map_of env acc = Ok m -> Forall env_item_ok env.
Proof.
  induction env as [|item env IH]; intros acc m H; [constructor|].
  simpl in H.
  destruct item as [| | | | | |fields]; simpl in H; try discriminate.
  set (k := match dict_lookup "name" fields with Some n => n | None => JNull end) in *.
  destruct (hashable k) eqn:Hhash; [|discriminate].
  constructor.
  - exists fields. split; [reflexivity|exact Hhash].
  - eapply IH; eassumption.
Qed.

Lemma env_map_of_chars (s : string) (acc m : pydict) :
  env_map_of (chars s) acc = Ok m -> s = EmptyString.
Proof. destruct s; [reflexivity|discriminate]. Qed.

Lemma env_map_of_keys (items : list (string * json)) (acc m : pydict) :
  env_map_of (map (fun kv => JStr (fst kv)) items) acc = Ok m -> items = [].
Proof. destruct items; [reflexivity|discriminate]. Qed.

(** Extraction looks at the first override only. *)
Lemma first_override_only (first : json) (rest : list json) :
  get_key_and_event_type (JArr (first :: rest)) = get_key_and_event_type (JArr [first]).
Proof. reflexivity. Qed.

Lemma extraction_ok (first : json) (rest env : list json) :
  environment_of first env ->
  get_key_and_event_type (JArr (first :: rest)) =
    Ok (env_or_null "S3_OBJECT_KEY" env, env_or_null "EVENT_TYPE" env).
Proof.
  intros [fields [-> [Henv Hok]]].
  destruct (env_map_of_ok env Hok []) as [m [Hm Hget]].
  unfold get_key_and_event_type. simpl.
  assert (Hiter : py_iter (match dict_lookup "environment" fields with
                           | Some x => x | None => JArr [] end) = Ok env).
  { destruct (dict_lookup "environment" fields); subst; reflexivity. }
  rewrite Hiter. simpl. rewrite Hm. simpl.
  rewrite !Hget. unfold value_in, env_or_null.
  destruct (env_value "S3_OBJECT_KEY" env), (env_value "EVENT_TYPE" env); reflexivity.
Qed.

Lemma truthy_not_null (v : json) : truthy v = true -> v <> JNull.
Proof. intros H ->. discriminate. Qed.

Lemma extraction_inv (ovs key event_type : json) :
  get_key_and_event_type ovs = Ok (key, event_type) ->
  truthy key = true ->
  exists first rest env,
    ovs = JArr (first :: rest) /\ environment_of first env /\
    key = env_or_null "S3_OBJECT_KEY" env /\
    event_type = env_or_null "EVENT_TYPE" env.
Proof.
  unfold get_key_and_event_type. intros H Hkey.
  destruct (truthy ovs) eqn:Hovs; simpl in H.
  2:{ injection H as <- <-. discriminate. }
  destruct ovs as [| | | | [|c s] | [|first rest] | items]; simpl in H; try discriminate.
  destruct first as [| | | | | |fields]; simpl in H; try discriminate.
  set (env_list := match dict_lookup "environment" fields with
                   | Some x => x | None => JArr [] end) in *.
  destruct (py_iter env_list) as [its|] eqn:Hiter; simpl in H; [|discriminate].
  destruct (env_map_of its []) as [m|] eqn:Hm; simpl in H; [|discriminate].
  injection H as <- <-.
  assert (Hlist : env_list = JArr its).
  { destruct env_list as [| | | |s|xs|kvs]; simpl in Hiter; try discriminate;
      injection Hiter as <-.
    - pose proof (env_map_of_chars _ _ _ Hm) as ->. simpl in Hm.
      injection Hm as <-. discriminate.
    - reflexivity.
    - pose proof (env_map_of_keys _ _ _ Hm) as ->. simpl in Hm.
      injection Hm as <-. discriminate. }
  pose proof (env_map_of_inv _ _ _ Hm) as Hok.
  destruct (env_map_of_ok its Hok []) as [m' [Hm' Hget]].
  rewrite Hm in Hm'. injection Hm' as <-.
  exists (JObj fields), rest, its. repeat split.
  - exists fields. repeat split; [|exact Hok].
    subst env_list. destruct (dict_lookup "environment" fields).
    + exact Hlist.
    + injection Hlist as <-. reflexivity.
  - rewrite Hget. unfold value_in, env_or_null.
    destruct (env_value "S3_OBJECT_KEY" its); reflexivity.
  - rewrite Hget. unfold value_in, env_or_null.
    destruct (env_value "EVENT_TYPE" its); reflexivity.
Qed.

(* ------------------------------------------------------------------------- *)
(** ** Lemmas on the run of one record                                        *)
(* ------------------------------------------------------------------------- *)

Lemma patch_status_run (w : world) (doc status tok orig : string) (t : trace) :
  patch_status w doc status tok orig t =
    let req := patch_request w doc status tok orig in
    match accepts w req with
    | Raise e =>
        (Raise e, t ++ [Log INFO "Patching document status via management-api"])
    | Ok _ =>
        let out := patch_outcome (management_api w (List.length (requests t)) req) in
        (fst out,
         t ++ [Log INFO "Patching document status via management-api"; UrlOpen req 30]
           ++ snd out)
    end.
Proof.
  unfold patch_status, new_Request, add_header, accepts, patch_request, try_except,
    urlopen, log_info, log_error.
  unfold bind, emit, raise, lift. cbv zeta. simpl.
  destruct (request_Request w _ _ _) as [[]|e0]; simpl; [|reflexivity].
  rewrite count_urlopen, requests_app. simpl requests. rewrite app_nil_r.
  destruct (management_api w _ _) as [code body|reason|e]; simpl.
  - destruct (is_2xx code); simpl; rewrite <- !app_assoc; reflexivity.
  - rewrite <- !app_assoc; reflexivity.
  - destruct e; simpl; rewrite <- !app_assoc; reflexivity.
Qed.

Lemma patch_outcome_requests (x : exchange) : requests (snd (patch_outcome x)) = [].
Proof.
  destruct x as [code body|reason|e]; simpl; [destruct (is_2xx code)| |destruct e];
    reflexivity.
Qed.

Lemma patch_outcome_secret_fetches (x : exchange) :
  secret_fetches (snd (patch_outcome x)) = [].
Proof.
  destruct x as [code body|reason|e]; simpl; [destruct (is_2xx code)| |destruct e];
    reflexivity.
Qed.

Lemma patch_outcome_effects (x : exchange) : effects (snd (patch_outcome x)) = [].
Proof.
  destruct x as [code body|reason|e]; simpl; [destruct (is_2xx code)| |destruct e];
    reflexivity.
Qed.

(** The requests of [patch_status]: the one request when its construction
    is accepted, none otherwise. *)
Lemma patch_status_requests (w : world) (doc status tok orig : string) (t : trace) :
  requests (snd (patch_status w doc status tok orig t)) =
    requests t ++
    match accepts w (patch_request w doc status tok orig) with
    | Ok _ => [patch_request w doc status tok orig]
    | Raise _ => []
    end.
Proof.
  rewrite patch_status_run. cbv zeta.
  destruct (accepts w _) as [[]|e]; cbn [snd]; rewrite !requests_app.
  - rewrite patch_outcome_requests. simpl. rewrite ?app_nil_r. reflexivity.
  - reflexivity.
Qed.

Lemma patch_status_secret_fetches (w : world) (doc status tok orig : string) (t : trace) :
  secret_fetches (snd (patch_status w doc status tok orig t)) = secret_fetches t.
Proof.
  rewrite patch_status_run. cbv zeta.
  destruct (accepts w _) as [[]|e]; cbn [snd]; rewrite !secret_fetches_app.
  - rewrite patch_outcome_secret_fetches. simpl. rewrite !app_nil_r. reflexivity.
  - simpl. apply app_nil_r.
Qed.

(** A request that cannot be constructed is not sent: the exception of the
    constructor leaves [patch_status] after its first log line. *)
Lemma patch_status_refused (w : world) (doc status tok orig : string) (t : trace)
    (e : exn) :
  accepts w (patch_request w doc status tok orig) = Raise e ->
  patch_status w doc status tok orig t =
    (Raise e, t ++ [Log INFO "Patching document status via management-api"]).
Proof. intros H. rewrite patch_status_run. cbv zeta. rewrite H. reflexivity. Qed.

Lemma report_from_run (w : world) (m u h : string) (ovs : json) (tok orig : string)
    (t : trace) :
  report_from w m u h ovs tok orig t =
    match get_key_and_event_type ovs with
    | Raise e => (Raise e, t)
    | Ok (key, event_type) =>
        if negb (truthy key) || negb (truthy event_type)
        then (Ok tt, t ++ [Log ERROR m])
        else
          match status_from_event_type event_type with
          | None => (Ok tt, t ++ [Log ERROR u])
          | Some status =>
              match path_stem key with
              | Raise e => (Raise e, t)
              | Ok doc => patch_status w doc status tok orig (t ++ [Log INFO h])
              end
          end
    end.
Proof.
  unfold report_from, bind, lift.
  destruct (get_key_and_event_type ovs) as [[key et]|e]; [|reflexivity].
  destruct (negb (truthy key) || negb (truthy et)); [reflexivity|].
  destruct (status_from_event_type et); [|reflexivity].
  destruct (path_stem key); reflexivity.
Qed.

Lemma handle_ecs_task_failure_run (w : world) (payload : json) (tok orig : string)
    (t : trace) :
  handle_ecs_task_failure w payload tok orig t =
    match ecs_path payload with
    | Raise e => (Raise e, t)
    | Ok ovs => report_from_ecs w ovs tok orig t
    end.
Proof.
  unfold handle_ecs_task_failure, ecs_path, bind, lift.
  destruct (py_get payload "detail" (JObj [])) as [detail|]; [|reflexivity]. simpl.
  destruct (py_get detail "overrides" (JObj [])) as [o|]; [|reflexivity]. simpl.
  destruct (py_get o "containerOverrides" (JArr [])); reflexivity.
Qed.

Lemma handle_run_task_dlq_run (w : world) (payload : json) (tok orig : string)
    (t : trace) :
  handle_run_task_dlq w payload tok orig t =
    match py_get payload "containerOverrides" (JArr []) with
    | Raise e => (Raise e, t)
    | Ok ovs => report_from_run_task w ovs tok orig t
    end.
Proof.
  unfold handle_run_task_dlq, bind, lift.
  destruct (py_get payload "containerOverrides" (JArr [])); reflexivity.
Qed.

Lemma process_record_run (w : world) (tok orig : string) (record : json) (t : trace) :
  process_record w tok orig record t =
    match py_get record "body" (JStr EmptyString) with
    | Raise e => (Raise e, t)
    | Ok body =>
        match loads w body with
        | Raise JSONDecodeError =>
            (Ok tt, t ++ [Log ERROR "Bad JSON body in SQS message; skipping"])
        | Raise e => (Raise e, t)
        | Ok payload =>
            match py_get payload "detail-type" JNull with
            | Raise e => (Raise e, t)
            | Ok detail_type =>
                if py_eq_str detail_type ECS_TASK_STATE_CHANGE
                then handle_ecs_task_failure w payload tok orig t
                else
                  match py_contains "containerOverrides" payload with
                  | Raise e => (Raise e, t)
                  | Ok true => handle_run_task_dlq w payload tok orig t
                  | Ok false =>
                      (Ok tt, t ++ [Log ERROR "Unrecognized payload shape; skipping"])
                  end
            end
        end
    end.
Proof.
  unfold process_record, bind, lift, try_except, ret, raise, log_error, emit.
  destruct (py_get record "body" (JStr EmptyString)) as [body|]; [|reflexivity].
  destruct (loads w body) as [payload|e]; [|destruct e; reflexivity].
  destruct (py_get payload "detail-type" JNull) as [dt|]; [|reflexivity].
  unfold ECS_TASK_STATE_CHANGE.
  destruct (py_eq_str dt "ECS Task State Change"); [reflexivity|].
  destruct (py_contains "containerOverrides" payload) as [[|]|]; reflexivity.
Qed.

Lemma status_recognized (s : string) :
  s = "Object Created" \/ s = "Object Deleted" ->
  status_from_event_type (JStr s) = Some (status_of s).
Proof. intros [-> | ->]; reflexivity. Qed.

Lemma status_inv (event_type : json) (status : string) :
  status_from_event_type event_type = Some status ->
  exists s, event_type = JStr s /\
            (s = "Object Created" \/ s = "Object Deleted") /\
            status = status_of s.
Proof.
  unfold status_from_event_type, py_eq_str.
  destruct event_type as [| | | |s| |]; try discriminate.
  destruct (String.eqb_spec s "Object Created") as [->|_].
  - intros [= <-]. exists "Object Created". auto.
  - destruct (String.eqb_spec s "Object Deleted") as [->|_]; [|discriminate].
    intros [= <-]. exists "Object Deleted". auto.
Qed.

Lemma truthy_str (s : string) : truthy (JStr s) = true <-> s <> EmptyString.
Proof. destruct s; simpl; split; congruence. Qed.

Lemma extractable_extraction (ovs : json) (key et : string) :
  extractable ovs key et ->
  get_key_and_event_type ovs = Ok (JStr key, JStr et).
Proof.
  intros (first & rest & env & -> & Henv & Hk & _ & He & _).
  rewrite (extraction_ok first rest env Henv).
  unfold env_or_null. rewrite Hk, He. reflexivity.
Qed.

Lemma report_from_cases (w : world) (m u h : string) (ovs : json) (tok orig : string)
    (t : trace) :
  (exists key et,
      extractable ovs key et /\
      report_from w m u h ovs tok orig t =
        patch_status w (stem_of_name (path_name key)) (status_of et) tok orig
                     (t ++ [Log INFO h]))
  \/
  ((forall key et, ~ extractable ovs key et) /\
   ((exists e, report_from w m u h ovs tok orig t = (Raise e, t)) \/
    (exists msg, report_from w m u h ovs tok orig t = (Ok tt, t ++ [Log ERROR msg])))).
Proof.
  rewrite report_from_run.
  destruct (get_key_and_event_type ovs) as [[key et]|e] eqn:Hx.
  2:{ right. split; [|left; eauto].
      intros k e' Hex. apply extractable_extraction in Hex. congruence. }
  destruct (truthy key) eqn:Hkey; simpl.
  2:{ right. split; [|right; eauto].
      intros k e' Hex. pose proof Hex as (_ & _ & _ & _ & _ & _ & Hne & _).
      apply extractable_extraction in Hex. rewrite Hx in Hex.
      injection Hex as -> ->. apply truthy_str in Hne. congruence. }
  destruct (truthy et) eqn:Het; simpl.
  2:{ right. split; [|right; eauto].
      intros k e' Hex. pose proof Hex as (_ & _ & _ & _ & _ & _ & _ & _ & [-> | ->]);
        apply extractable_extraction in Hex; rewrite Hx in Hex;
        injection Hex as -> ->; discriminate. }
  destruct (status_from_event_type et) as [status|] eqn:Hst.
  2:{ right. split; [|right; eauto].
      intros k e' Hex. pose proof Hex as (_ & _ & _ & _ & _ & _ & _ & _ & Hrec).
      apply extractable_extraction in Hex. rewrite Hx in Hex.
      injection Hex as -> ->. rewrite (status_recognized _ Hrec) in Hst. discriminate. }
  apply status_inv in Hst as (s & -> & Hrec & ->).
  destruct key as [| | | |k| |];
    try (right; split; [|left; simpl; eauto];
         intros k e' Hex; apply extractable_extraction in Hex; congruence).
  left. exists k, s. split; [|reflexivity].
  destruct (extraction_inv _ _ _ Hx Hkey) as (first & rest & env & -> & Henv & Hk & He).
  exists first, rest, env. unfold env_or_null in Hk, He.
  destruct (env_value "S3_OBJECT_KEY" env) as [v|]; [|discriminate].
  destruct (env_value "EVENT_TYPE" env) as [v'|]; [|discriminate].
  subst v v'. repeat split; auto. now apply truthy_str.
Qed.

Lemma py_eq_str_true (v : json) (s : string) : py_eq_str v s = true <-> v = JStr s.
Proof.
  destruct v; simpl; split; try congruence.
  - intros H. apply String.eqb_eq in H. congruence.
  - intros [= ->]. apply String.eqb_refl.
Qed.

Lemma ecs_path_of_overrides (items detail overrides : list (string * json)) (ovs : json) :
  dict_lookup "detail" items = Some (JObj detail) ->
  dict_lookup "overrides" detail = Some (JObj overrides) ->
  dict_lookup "containerOverrides" overrides = Some ovs ->
  ecs_path (JObj items) = Ok ovs.
Proof.
  intros H1 H2 H3. unfold ecs_path. simpl. rewrite H1. simpl. rewrite H2. simpl.
  rewrite H3. reflexivity.
Qed.

Lemma ecs_path_nonempty (items : list (string * json)) (first : json) (rest : list json) :
  ecs_path (JObj items) = Ok (JArr (first :: rest)) ->
  exists detail overrides,
    dict_lookup "detail" items = Some (JObj detail) /\
    dict_lookup "overrides" detail = Some (JObj overrides) /\
    dict_lookup "containerOverrides" overrides = Some (JArr (first :: rest)).
Proof.
  unfold ecs_path. simpl.
  destruct (dict_lookup "detail" items) as [d|] eqn:H1; simpl; [|discriminate].
  destruct d as [| | | | | |detail]; simpl; try discriminate.
  destruct (dict_lookup "overrides" detail) as [o|] eqn:H2; simpl; [|discriminate].
  destruct o as [| | | | | |overrides]; simpl; try discriminate.
  destruct (dict_lookup "containerOverrides" overrides) as [x|] eqn:H3; [|discriminate].
  intros [= ->]. eauto.
Qed.

(** What one record does: either both values are extractable and the record
    ends in [patch_status], or they are not and the record raises before any
    request or is skipped with one error line. *)
Lemma record_cases (w : world) (tok orig : string) (record : json) (t : trace) :
  (exists payload key et h,
      message_payload w record payload /\ reportable payload key et /\
      process_record w tok orig record t =
        patch_status w (stem_of_name (path_name key)) (status_of et) tok orig
                     (t ++ [Log INFO h]))
  \/
  ((forall payload key et,
       message_payload w record payload -> ~ reportable payload key et) /\
   ((exists e, process_record w tok orig record t = (Raise e, t)) \/
    (exists msg, process_record w tok orig record t = (Ok tt, t ++ [Log ERROR msg])))).
Proof.
  rewrite process_record_run.
  destruct (py_get record "body" (JStr EmptyString)) as [body|e] eqn:Hb.
  2:{ right. split; [|left; eauto]. intros p k e' [s [H _]]. congruence. }
  destruct (loads w body) as [payload|e] eqn:Hl.
  2:{ right. split.
      - intros p k e' [s [H H']]. rewrite Hb in H. injection H as ->.
        simpl in Hl. congruence.
      - destruct e; eauto. }
  assert (Hpay : forall p, message_payload w record p -> p = payload).
  { intros p [s [H H']]. rewrite Hb in H. injection H as ->. simpl in Hl. congruence. }
  assert (Hmsg : message_payload w record payload).
  { destruct body as [| | | |s| |]; simpl in Hl; try discriminate.
    exists s. auto. }
  destruct payload as [| | | | | |items]; simpl;
    try (right; split; [|left; eauto];
         intros p k e' Hp [ovs [Hov _]]; apply Hpay in Hp; subst p; inversion Hov).
  set (dt := match dict_lookup "detail-type" items with Some x => x | None => JNull end).
  destruct (py_eq_str dt ECS_TASK_STATE_CHANGE) eqn:Hdt.
  - apply py_eq_str_true in Hdt.
    assert (Hlk : dict_lookup "detail-type" items = Some (JStr ECS_TASK_STATE_CHANGE)).
    { subst dt. destruct (dict_lookup "detail-type" items); congruence. }
    rewrite handle_ecs_task_failure_run.
    destruct (ecs_path (JObj items)) as [ovs|e] eqn:Hpath.
    2:{ right. split; [|left; eauto].
        intros p k e' Hp [ovs [Hov _]]. apply Hpay in Hp. subst p.
        inversion Hov; subst; [|congruence].
        erewrite ecs_path_of_overrides in Hpath by eassumption. discriminate. }
    destruct (report_from_cases w
                "Missing S3_OBJECT_KEY or EVENT_TYPE in ECS detail; skipping"
                "Unknown EVENT_TYPE in ECS detail; skipping"
                "Handling ECS Task failure event" ovs tok orig t)
      as [(key & et & Hex & Hrun) | (Hno & Hrun)].
    + left. exists (JObj items), key, et, "Handling ECS Task failure event".
      split; [exact Hmsg|]. split; [|exact Hrun].
      exists ovs. split; [|exact Hex].
      destruct Hex as (first & rest & env & -> & _).
      destruct (ecs_path_nonempty _ _ _ Hpath) as (d & o & H1 & H2 & H3).
      eapply overrides_ecs; eassumption.
    + right. split; [|exact Hrun].
      intros p k e' Hp [ovs' [Hov Hex]]. apply Hpay in Hp. subst p.
      inversion Hov; subst; [|congruence].
      erewrite ecs_path_of_overrides in Hpath by eassumption.
      injection Hpath as ->. exact (Hno _ _ Hex).
  - assert (Hlk : dict_lookup "detail-type" items <> Some (JStr ECS_TASK_STATE_CHANGE)).
    { intros H. subst dt. rewrite H in Hdt. unfold ECS_TASK_STATE_CHANGE in Hdt.
      simpl in Hdt. discriminate. }
    destruct (dict_lookup "containerOverrides" items) as [ovs|] eqn:Hco.
    2:{ right. split; [|right; eauto].
        intros p k e' Hp [ovs [Hov _]]. apply Hpay in Hp. subst p.
        inversion Hov; subst; congruence. }
    rewrite handle_run_task_dlq_run. simpl. rewrite Hco.
    destruct (report_from_cases w
                "Missing S3_OBJECT_KEY or EVENT_TYPE in RunTask payload; skipping"
                "Unknown EVENT_TYPE in RunTask payload; skipping"
                "Handling RunTask DLQ message" ovs tok orig t)
      as [(key & et & Hex & Hrun) | (Hno & Hrun)].
    + left. exists (JObj items), key, et, "Handling RunTask DLQ message".
      split; [exact Hmsg|]. split; [|exact Hrun].
      exists ovs. split; [|exact Hex]. apply overrides_run_task; assumption.
    + right. split; [|exact Hrun].
      intros p k e' Hp [ovs' [Hov Hex]]. apply Hpay in Hp. subst p.
      inversion Hov; subst; [congruence|].
      assert (ovs' = ovs) by congruence. subst ovs'. exact (Hno _ _ Hex).
Qed.

(** The handler a decoded payload is given to, with the overrides it reads. *)
Lemma record_selects (w : world) (tok orig : string) (record payload ovs : json)
    (t : trace) :
  message_payload w record payload ->
  overrides_of payload ovs ->
  process_record w tok orig record t = report_from_ecs w ovs tok orig t \/
  process_record w tok orig record t = report_from_run_task w ovs tok orig t.
Proof.
  intros [s [Hb Hl]] Hov. rewrite process_record_run, Hb. simpl. rewrite Hl.
  inversion Hov as [items detail overrides ovs' H1 H2 H3 H4
                   |items ovs' H1 H2]; subst; simpl.
  - left. rewrite H1. simpl. rewrite handle_ecs_task_failure_run.
    rewrite (ecs_path_of_overrides _ _ _ _ H2 H3 H4). reflexivity.
  - right.
    assert (Hdt : py_eq_str (match dict_lookup "detail-type" items with
                             | Some x => x | None => JNull end)
                            ECS_TASK_STATE_CHANGE = false).
    { destruct (py_eq_str _ _) eqn:E; [|reflexivity].
      apply py_eq_str_true in E.
      destruct (dict_lookup "detail-type" items); congruence. }
    rewrite Hdt, H2. rewrite handle_run_task_dlq_run. simpl. rewrite H2. reflexivity.
Qed.

(** A reportable message ends in [patch_status] on the stem of its key and
    the status of its event type. *)
Lemma reportable_run (w : world) (tok orig : string) (record payload : json)
    (key et : string) (t : trace) :
  message_payload w record payload ->
  reportable payload key et ->
  exists h,
    process_record w tok orig record t =
      patch_status w (stem_of_name (path_name key)) (status_of et) tok orig
                   (t ++ [Log INFO h]).
Proof.
  intros Hm [ovs [Hov Hex]].
  pose proof Hex as (_ & _ & _ & _ & _ & _ & Hne & _ & Hrec).
  apply truthy_str in Hne.
  assert (Het : truthy (JStr et) = true) by (destruct Hrec as [-> | ->]; reflexivity).
  destruct (record_selects w tok orig record payload ovs t Hm Hov) as [-> | ->];
    unfold report_from_ecs, report_from_run_task;
    rewrite report_from_run, (extractable_extraction _ _ _ Hex), Hne, Het,
      (status_recognized _ Hrec); simpl; eauto.
Qed.

Lemma app_one_neq {A} (l : list A) (x : A) : l ++ [x] <> l.
Proof.
  intros H. apply (f_equal (@List.length A)) in H.
  rewrite length_app in H. simpl in H. lia.
Qed.

Lemma requests_log (t : trace) (lvl : level) (msg : string) :
  requests (t ++ [Log lvl msg]) = requests t.
Proof. rewrite requests_app. apply app_nil_r. Qed.

(** The requests of a reportable message: its report when the request can
    be constructed, none otherwise. *)
Lemma reportable_requests (w : world) (tok orig : string) (record payload : json)
    (key et : string) (t : trace) :
  message_payload w record payload ->
  reportable payload key et ->
  requests (snd (process_record w tok orig record t)) =
    requests t ++
    match accepts w (patch_request w (stem_of_name (path_name key)) (status_of et)
                                   tok orig) with
    | Ok _ => [patch_request w (stem_of_name (path_name key)) (status_of et) tok orig]
    | Raise _ => []
    end.
Proof.
  intros Hm Hr.
  destruct (reportable_run w tok orig record payload key et t Hm Hr) as [h ->].
  rewrite patch_status_requests, requests_log. reflexivity.
Qed.

(** A reportable message whose request cannot be constructed raises the
    exception of the constructor. *)
Lemma reportable_refused (w : world) (tok orig : string) (record payload : json)
    (key et : string) (t : trace) (e : exn) :
  message_payload w record payload ->
  reportable payload key et ->
  accepts w (patch_request w (stem_of_name (path_name key)) (status_of et) tok orig)
    = Raise e ->
  fst (process_record w tok orig record t) = Raise e.
Proof.
  intros Hm Hr Hacc.
  destruct (reportable_run w tok orig record payload key et t Hm Hr) as [h ->].
  rewrite (patch_status_refused _ _ _ _ _ _ _ Hacc). reflexivity.
Qed.

(* ------------------------------------------------------------------------- *)
(** ** The claims on the DLQ status reporter                                  *)
(* ------------------------------------------------------------------------- *)

(** C1, as amended.  A message yields a status report (one request) if and
    only if both values are extractable from its payload and the request can
    be constructed.  Extraction reads the first container override of the
    selected overrides only; that override must be an object whose
    environment list holds nothing but objects with hashable names, the key
    must be a non-empty string and the event type one of the two recognized
    ones.  The constructor of the request must accept the URL of the report.
    In every other case no request is issued. *)
Theorem C1_report_iff_extractable (w : world) (tok orig : string) (record : json)
    (t : trace) :
  let t' := snd (process_record w tok orig record t) in
  let reported :=
    exists payload key et,
      message_payload w record payload /\ reportable payload key et /\
      accepts w (patch_request w (stem_of_name (path_name key)) (status_of et)
                               tok orig) = Ok tt in
  (reported /\ exists req, requests t' = requests t ++ [req])
  \/
  (~ reported /\ requests t' = requests t).
Proof.
  cbv zeta.
  destruct (record_cases w tok orig record t)
    as [(payload & key & et & h & Hm & Hr & Hrun) | (Hno & [[e Hrun] | [msg Hrun]])].
  - pose proof (reportable_requests w tok orig record payload key et t Hm Hr) as Hreq.
    destruct (accepts w (patch_request w (stem_of_name (path_name key)) (status_of et)
                                       tok orig)) as [[]|e] eqn:Hacc.
    + left. split; [|eauto]. exists payload, key, et. auto.
    + right. rewrite app_nil_r in Hreq. split; [|exact Hreq].
      intros (p & k & e' & Hm' & Hr' & Hacc').
      pose proof (reportable_requests w tok orig record p k e' t Hm' Hr') as Hreq'.
      rewrite Hacc', Hreq in Hreq'. symmetry in Hreq'.
      exact (app_one_neq _ _ Hreq').
  - right. split.
    + intros (p & k & e' & Hm & Hr & _). exact (Hno p k e' Hm Hr).
    + rewrite Hrun. reflexivity.
  - right. split.
    + intros (p & k & e' & Hm & Hr & _). exact (Hno p k e' Hm Hr).
    + rewrite Hrun. simpl. apply requests_log.
Qed.

(** C1, as stated, fails: the message below carries both values in the
    environment list of its second container override, and the invocation
    returns without a request. *)
Lemma C1_second_override_not_reported :
  message_payload Examples.healthy (sqs_record Examples.second_override_text)
                  Examples.second_override_payload /\
  carried_by_some_override Examples.second_override_payload
                           "foo/bar.txt" "Object Created" /\
  fst (run Examples.healthy (sqs_event [sqs_record Examples.second_override_text]))
    = Ok tt /\
  requests (snd (run Examples.healthy
                     (sqs_event [sqs_record Examples.second_override_text]))) = [].
Proof.
  split; [|split; [|split]].
  - exists Examples.second_override_text. split; reflexivity.
  - exists [JObj [("environment", JArr [])];
            JObj [("environment",
                   JArr [Examples.item "S3_OBJECT_KEY" "foo/bar.txt";
                         Examples.item "EVENT_TYPE" "Object Created"])]],
           (JObj [("environment",
                   JArr [Examples.item "S3_OBJECT_KEY" "foo/bar.txt";
                         Examples.item "EVENT_TYPE" "Object Created"])]),
           [Examples.item "S3_OBJECT_KEY" "foo/bar.txt";
            Examples.item "EVENT_TYPE" "Object Created"].
    split.
    { apply overrides_run_task; [discriminate|reflexivity]. }
    split; [right; left; reflexivity|].
    split.
    { eexists. split; [reflexivity|]. split; [reflexivity|].
      repeat constructor; eexists; split; reflexivity. }
    repeat split; auto. discriminate.
  - vm_compute. reflexivity.
  - vm_compute. reflexivity.
Qed.

(** C4.  [Object Created] maps to [failed], [Object Deleted] to
    [delete_failed] and every other value to no status; a message whose
    extracted event type has no status is skipped with one error line and
    without a request. *)
Theorem C4_status_mapping :
  status_from_event_type (JStr "Object Created") = Some "failed" /\
  status_from_event_type (JStr "Object Deleted") = Some "delete_failed" /\
  (forall v, v <> JStr "Object Created" -> v <> JStr "Object Deleted" ->
             status_from_event_type v = None) /\
  (forall (w : world) (tok orig : string) (record payload ovs key event_type : json)
          (t : trace),
      message_payload w record payload ->
      overrides_of payload ovs ->
      get_key_and_event_type ovs = Ok (key, event_type) ->
      status_from_event_type event_type = None ->
      exists msg,
        process_record w tok orig record t = (Ok tt, t ++ [Log ERROR msg]) /\
        requests (t ++ [Log ERROR msg]) = requests t).
Proof.
  split; [reflexivity|]. split; [reflexivity|]. split.
  - intros v H1 H2. unfold status_from_event_type.
    destruct (py_eq_str v "Object Created") eqn:E1.
    { apply py_eq_str_true in E1. contradiction. }
    destruct (py_eq_str v "Object Deleted") eqn:E2.
    { apply py_eq_str_true in E2. contradiction. }
    reflexivity.
  - intros w tok orig record payload ovs key et t Hm Hov Hx Hst.
    assert (Hreq : forall msg, requests (t ++ [Log ERROR msg]) = requests t).
    { intros msg. rewrite requests_app. apply app_nil_r. }
    destruct (record_selects w tok orig record payload ovs t Hm Hov) as [-> | ->];
      unfold report_from_ecs, report_from_run_task;
      rewrite report_from_run, Hx, Hst;
      destruct (negb (truthy key) || negb (truthy et)); eauto.
Qed.

(** C4 at an ECS message whose event type is [Object Restored]. *)
Lemma C4_witness :
  exists msg,
    process_record Examples.healthy "token-1" "origin-1"
      (sqs_record (Examples.ecs_text "docs/a.pdf" "Object Restored")) []
      = (Ok tt, [] ++ [Log ERROR msg]) /\
    requests ([] ++ [Log ERROR msg]) = requests [].
Proof.
  destruct C4_status_mapping as (_ & _ & _ & H).
  apply (H Examples.healthy "token-1" "origin-1"
           (sqs_record (Examples.ecs_text "docs/a.pdf" "Object Restored"))
           (Examples.ecs_payload "docs/a.pdf" "Object Restored")
           (JArr [JObj [("environment",
                         JArr [Examples.item "S3_OBJECT_KEY" "docs/a.pdf";
                               Examples.item "EVENT_TYPE" "Object Restored"])]])
           (JStr "docs/a.pdf") (JStr "Object Restored") []).
  - exists (Examples.ecs_text "docs/a.pdf" "Object Restored"). split; reflexivity.
  - eapply overrides_ecs; reflexivity.
  - reflexivity.
  - reflexivity.
Defined.

(** C9, as amended.  Extraction reads the first container override only:
    whatever the later overrides carry, the message is handled by its first
    override alone and no report is issued for values that stand in a later
    one.  When the first override is an object whose environment list holds
    nothing but objects with hashable names and gives [S3_OBJECT_KEY] or
    [EVENT_TYPE] no value, or the empty string, the message is skipped with
    the error line of its handler and without a request.  When the extraction
    from the first override raises, as it does whenever that override is not
    an object, the record raises that exception, again without a request. *)
Theorem C9_first_override_only (w : world) (tok orig : string)
    (record payload first : json) (rest : list json) (t : trace) :
  message_payload w record payload ->
  overrides_of payload (JArr (first :: rest)) ->
  get_key_and_event_type (JArr (first :: rest)) = get_key_and_event_type (JArr [first]) /\
  (forall env,
      environment_of first env ->
      missing "S3_OBJECT_KEY" env \/ missing "EVENT_TYPE" env ->
      exists msg,
        In msg ["Missing S3_OBJECT_KEY or EVENT_TYPE in ECS detail; skipping";
                "Missing S3_OBJECT_KEY or EVENT_TYPE in RunTask payload; skipping"] /\
        process_record w tok orig record t = (Ok tt, t ++ [Log ERROR msg]) /\
        requests (t ++ [Log ERROR msg]) = requests t) /\
  (forall e,
      get_key_and_event_type (JArr [first]) = Raise e ->
      process_record w tok orig record t = (Raise e, t)) /\
  ((forall fields, first <> JObj fields) ->
   process_record w tok orig record t = (Raise AttributeError, t)).
Proof.
  intros Hm Hov. split; [reflexivity|].
  assert (Hraise : forall e,
             get_key_and_event_type (JArr [first]) = Raise e ->
             process_record w tok orig record t = (Raise e, t)).
  { intros e He.
    rewrite <- (first_override_only first rest) in He.
    destruct (record_selects w tok orig record payload _ t Hm Hov) as [-> | ->];
      unfold report_from_ecs, report_from_run_task;
      rewrite report_from_run, He; reflexivity. }
  split; [|split; [exact Hraise|]].
  - intros env Henv Hmiss.
    assert (Hfalsy : negb (truthy (env_or_null "S3_OBJECT_KEY" env))
                     || negb (truthy (env_or_null "EVENT_TYPE" env)) = true).
    { unfold env_or_null.
      destruct Hmiss as [[H | H] | [H | H]]; rewrite H; simpl;
        rewrite ?orb_true_r; reflexivity. }
    assert (Hreq : forall msg, requests (t ++ [Log ERROR msg]) = requests t).
    { intros msg. rewrite requests_app. apply app_nil_r. }
    destruct (record_selects w tok orig record payload _ t Hm Hov) as [-> | ->];
      unfold report_from_ecs, report_from_run_task;
      rewrite report_from_run, (extraction_ok first rest env Henv), Hfalsy;
      eexists; (split; [|split; [reflexivity|apply Hreq]]); simpl; auto.
  - intros Hno. apply Hraise.
    destruct first; try reflexivity. exfalso. eapply Hno. reflexivity.
Qed.

(** C9 at the message whose second override alone carries the two values,
    after an empty first override and after a first override that is
    [null]. *)
Lemma C9_witness :
  (exists msg,
     In msg ["Missing S3_OBJECT_KEY or EVENT_TYPE in ECS detail; skipping";
             "Missing S3_OBJECT_KEY or EVENT_TYPE in RunTask payload; skipping"] /\
     process_record Examples.healthy "token-1" "origin-1"
       (sqs_record Examples.second_override_text) []
       = (Ok tt, [] ++ [Log ERROR msg]) /\
     requests ([] ++ [Log ERROR msg]) = requests []) /\
  process_record MoreExamples.healthy "token-1" "origin-1"
    (sqs_record MoreExamples.null_first_text) []
    = (Raise AttributeError, []).
Proof.
  split.
  - destruct (C9_first_override_only Examples.healthy "token-1" "origin-1"
                (sqs_record Examples.second_override_text)
                Examples.second_override_payload
                (JObj [("environment", JArr [])])
                [JObj [("environment",
                        JArr [Examples.item "S3_OBJECT_KEY" "foo/bar.txt";
                              Examples.item "EVENT_TYPE" "Object Created"])]]
                []) as (_ & H & _).
    + exists Examples.second_override_text. split; reflexivity.
    + apply overrides_run_task; [discriminate|reflexivity].
    + apply (H []).
      * eexists. split; [reflexivity|]. split; [reflexivity|constructor].
      * left. left. reflexivity.
  - destruct (C9_first_override_only MoreExamples.healthy "token-1" "origin-1"
                (sqs_record MoreExamples.null_first_text)
                MoreExamples.null_first_payload
                JNull
                [JObj [("environment",
                        JArr [Examples.item "S3_OBJECT_KEY" "foo/bar.txt";
                              Examples.item "EVENT_TYPE" "Object Created"])]]
                []) as (_ & _ & _ & H).
    + exists MoreExamples.null_first_text. split; reflexivity.
    + apply overrides_run_task; [discriminate|reflexivity].
    + apply H. discriminate.
Defined.

(** C9, as stated, fails: the message below carries both values in its
    second container override only, after a first override that is [null];
    it is not skipped: the extraction raises [AttributeError] and so does
    the invocation. *)
Lemma C9_null_first_override_not_skipped :
  message_payload MoreExamples.healthy (sqs_record MoreExamples.null_first_text)
                  MoreExamples.null_first_payload /\
  carried_by_some_override MoreExamples.null_first_payload
                           "foo/bar.txt" "Object Created" /\
  (forall msg,
     process_record MoreExamples.healthy "token-1" "origin-1"
       (sqs_record MoreExamples.null_first_text) []
     <> (Ok tt, [Log ERROR msg])) /\
  run MoreExamples.healthy (sqs_event [sqs_record MoreExamples.null_first_text])
    = (Raise AttributeError,
       [Log INFO "Status DLQ Lambda invocation received";
        Log INFO "Fetching ingestion API token from Secrets Manager";
        GetSecretValue (Some "arn:ingestion-token");
        Log INFO "Successfully fetched ingestion API token";
        Log INFO "Fetching Origin Verify Secret token from Secrets Manager";
        GetSecretValue (Some "arn:origin-verify");
        Log INFO "Successfully fetched Origin Verify Secret"]).
Proof.
  split; [|split; [|split]].
  - exists MoreExamples.null_first_text. split; reflexivity.
  - exists [JNull;
            JObj [("environment",
                   JArr [Examples.item "S3_OBJECT_KEY" "foo/bar.txt";
                         Examples.item "EVENT_TYPE" "Object Created"])]],
           (JObj [("environment",
                   JArr [Examples.item "S3_OBJECT_KEY" "foo/bar.txt";
                         Examples.item "EVENT_TYPE" "Object Created"])]),
           [Examples.item "S3_OBJECT_KEY" "foo/bar.txt";
            Examples.item "EVENT_TYPE" "Object Created"].
    split.
    { apply overrides_run_task; [discriminate|reflexivity]. }
    split; [right; left; reflexivity|].
    split.
    { eexists. split; [reflexivity|]. split; [reflexivity|].
      repeat constructor; eexists; split; reflexivity. }
    repeat split; auto. discriminate.
  - intros msg H. vm_compute in H. discriminate.
  - vm_compute. reflexivity.
Qed.

(** C10.  When the event has no [Records] key or an empty [Records] list the
    handler logs twice and returns: no secret is fetched and no request is
    issued. *)
Theorem C10_empty_batch (w : world) (items : list (string * json)) :
  dict_lookup "Records" items = None \/ dict_lookup "Records" items = Some (JArr []) ->
  run w (JObj items) =
    (Ok tt, [Log INFO "Status DLQ Lambda invocation received";
             Log INFO "No records in event; nothing to process"]) /\
  secret_fetches (snd (run w (JObj items))) = [] /\
  requests (snd (run w (JObj items))) = [].
Proof.
  intros H.
  assert (Hrun : run w (JObj items) =
    (Ok tt, [Log INFO "Status DLQ Lambda invocation received";
             Log INFO "No records in event; nothing to process"])).
  { unfold run, handler, bind, lift. simpl. destruct H as [-> | ->]; reflexivity. }
  rewrite Hrun. auto.
Qed.

(** C10 at the event without a [Records] key and at the empty batch. *)
Lemma C10_witness :
  (run Examples.no_secrets (JObj []) =
     (Ok tt, [Log INFO "Status DLQ Lambda invocation received";
              Log INFO "No records in event; nothing to process"]) /\
   secret_fetches (snd (run Examples.no_secrets (JObj []))) = [] /\
   requests (snd (run Examples.no_secrets (JObj []))) = []) /\
  (run Examples.no_secrets (sqs_event []) =
     (Ok tt, [Log INFO "Status DLQ Lambda invocation received";
              Log INFO "No records in event; nothing to process"]) /\
   secret_fetches (snd (run Examples.no_secrets (sqs_event []))) = [] /\
   requests (snd (run Examples.no_secrets (sqs_event []))) = []).
Proof.
  split.
  - apply (C10_empty_batch Examples.no_secrets []). left. reflexivity.
  - apply (C10_empty_batch Examples.no_secrets [("Records", JArr [])]).
    right. reflexivity.
Defined.

(** C5, as amended.  For every decoded payload that is a JSON object exactly
    one of the three branches is taken, in the order of the two tests. *)
Theorem C5_classification (w : world) (tok orig : string) (record : json)
    (items : list (string * json)) (t : trace) :
  message_payload w record (JObj items) ->
  classified w tok orig record (JObj items) t.
Proof.
  intros [s [Hb Hl]]. unfold classified. cbv zeta.
  rewrite process_record_run, Hb. simpl. rewrite Hl. simpl.
  set (dt := match dict_lookup "detail-type" items with Some x => x | None => JNull end).
  destruct (py_eq_str dt ECS_TASK_STATE_CHANGE) eqn:Hdt.
  - apply py_eq_str_true in Hdt.
    assert (Hlk : dict_lookup "detail-type" items = Some (JStr ECS_TASK_STATE_CHANGE)).
    { subst dt. destruct (dict_lookup "detail-type" items); congruence. }
    left. split; [exists items; auto|]. split; [reflexivity|].
    intros items' detail overrides ovs [= <-] H1 H2 H3.
    rewrite handle_ecs_task_failure_run.
    rewrite (ecs_path_of_overrides _ _ _ _ H1 H2 H3). reflexivity.
  - assert (Hno : ~ is_task_state_change (JObj items)).
    { intros [items' [[= <-] H]]. subst dt. rewrite H in Hdt.
      unfold ECS_TASK_STATE_CHANGE in Hdt. simpl in Hdt. discriminate. }
    right. destruct (dict_lookup "containerOverrides" items) as [ovs|] eqn:Hco.
    + left. split; [exact Hno|]. split; [exists items, ovs; auto|].
      split; [reflexivity|].
      intros items' ovs' [= <-] H. rewrite handle_run_task_dlq_run. simpl.
      rewrite H. reflexivity.
    + right. split; [exact Hno|]. split; [|reflexivity].
      intros [items' [ovs [[= <-] H]]]. congruence.
Qed.

(** C5 at the three shapes: a task-state-change event, a run-task payload
    and a payload of neither shape. *)
Lemma C5_witness :
  classified Examples.healthy "token-1" "origin-1"
    (sqs_record (Examples.ecs_text "foo/bar.txt" "Object Created"))
    (Examples.ecs_payload "foo/bar.txt" "Object Created") [] /\
  classified Examples.healthy "token-1" "origin-1"
    (sqs_record Examples.empty_key_text) Examples.empty_key_payload [] /\
  classified Examples.healthy "token-1" "origin-1"
    (sqs_record Examples.other_text) Examples.other_payload [].
Proof.
  split; [|split].
  - apply (C5_classification Examples.healthy "token-1" "origin-1"
             (sqs_record (Examples.ecs_text "foo/bar.txt" "Object Created"))).
    exists (Examples.ecs_text "foo/bar.txt" "Object Created"). split; reflexivity.
  - apply (C5_classification Examples.healthy "token-1" "origin-1"
             (sqs_record Examples.empty_key_text)).
    exists Examples.empty_key_text. split; reflexivity.
  - apply (C5_classification Examples.healthy "token-1" "origin-1"
             (sqs_record Examples.other_text)).
    exists Examples.other_text. split; reflexivity.
Defined.

(** C5, as stated for every decoded payload, fails: the body [[]] decodes to
    an empty list, which has no [get]; none of the three branches is taken,
    the message is not skipped, and the invocation raises [AttributeError]. *)
Lemma C5_array_payload_not_classified :
  message_payload Examples.healthy (sqs_record "[]") (JArr []) /\
  ~ classified Examples.healthy "token-1" "origin-1" (sqs_record "[]") (JArr []) [] /\
  fst (run Examples.healthy (sqs_event [sqs_record "[]"])) = Raise AttributeError.
Proof.
  split; [|split].
  - exists "[]". split; reflexivity.
  - intros [[[items [H _]] _] | [[_ [[items [ovs [H _]]] _]] | [_ [_ H]]]];
      discriminate.
  - vm_compute. reflexivity.
Qed.

(* ------------------------------------------------------------------------- *)
(** ** Lemmas on a whole batch                                                *)
(* ------------------------------------------------------------------------- *)

Lemma patch_outcome_failure (x : exchange) :
  patch_outcome x =
    match failure_of x with
    | Some e => (Raise e, patch_log e)
    | None => (Ok tt, [Log INFO "Patch status response"])
    end.
Proof. destruct x as [code body| |]; simpl; [destruct (is_2xx code)| |]; reflexivity. Qed.

Lemma after_failure_app (w : world) (t d : trace) :
  forall n,
    after_failure w n (t ++ d) =
      match after_failure w n t with
      | Some (e, rest) => Some (e, rest ++ d)
      | None => after_failure w (n + List.length (requests t)) d
      end.
Proof.
  induction t as [|ev t IH]; intros n; simpl.
  - rewrite Nat.add_0_r. reflexivity.
  - destruct ev as [lvl msg|id|req tmo]; simpl; rewrite ?IH; try reflexivity.
    destruct (failure_of (management_api w n req)); [reflexivity|].
    rewrite Nat.add_succ_r. reflexivity.
Qed.

Lemma after_failure_logs (w : world) (n : nat) (t : trace) :
  requests t = [] -> after_failure w n t = None.
Proof.
  induction t as [|ev t IH]; intros H; [reflexivity|].
  destruct ev; simpl in *; auto. discriminate.
Qed.

Lemma patch_log_requests (e : exn) : requests (patch_log e) = [].
Proof. destruct e; reflexivity. Qed.

(** The three ways a record can go. *)
Lemma record_trace (w : world) (tok orig : string) (record : json) (t : trace) :
  (exists e, process_record w tok orig record t = (Raise e, t)) \/
  (exists msg, process_record w tok orig record t = (Ok tt, t ++ [Log ERROR msg])) \/
  (exists doc status h,
      process_record w tok orig record t =
        patch_status w doc status tok orig (t ++ [Log INFO h])).
Proof.
  destruct (record_cases w tok orig record t)
    as [(payload & key & et & h & _ & _ & Hrun) | (_ & [[e Hrun] | [msg Hrun]])];
    eauto 8.
Qed.

Lemma for_each_app {A} (xs ys : list A) (body : A -> M unit) (t : trace) :
  for_each (xs ++ ys) body t =
    match for_each xs body t with
    | (Ok _, t') => for_each ys body t'
    | (Raise e, t') => (Raise e, t')
    end.
Proof.
  revert t. induction xs as [|x xs IH]; intros t; simpl; [reflexivity|].
  unfold bind. destruct (body x t) as [[[]|e] t']; [apply IH|reflexivity].
Qed.

(** In a loop started on a trace without a failed request, a failed request
    is the last request: the loop raises its exception right after the error
    line. *)
Lemma loop_stops_at_failure (w : world) (tok orig : string) (rs : list json) :
  forall t e rest,
    after_failure w 0 t = None ->
    after_failure w 0 (snd (for_each rs (process_record w tok orig) t)) = Some (e, rest) ->
    fst (for_each rs (process_record w tok orig) t) = Raise e /\ rest = patch_log e.
Proof.
  induction rs as [|r rs IH]; intros t e rest Hclean Hfail; simpl in *.
  - congruence.
  - unfold bind in *.
    destruct (record_trace w tok orig r t)
      as [[e0 Hrun] | [[msg Hrun] | (doc & status & h & Hrun)]].
    + rewrite Hrun in *. simpl in *. congruence.
    + rewrite Hrun in *. apply IH; [|exact Hfail].
      rewrite after_failure_app, Hclean. reflexivity.
    + rewrite Hrun, patch_status_run in *. cbv zeta in *.
      set (req := patch_request w doc status tok orig) in *.
      destruct (accepts w req) as [[]|e1].
      2:{ simpl in Hfail. rewrite <- app_assoc in Hfail.
          rewrite after_failure_app, Hclean in Hfail. simpl in Hfail. discriminate. }
      rewrite patch_outcome_failure in *.
      rewrite requests_app in *. simpl requests in *. rewrite app_nil_r in *.
      destruct (failure_of (management_api w (List.length (requests t)) req))
        as [e0|] eqn:Hx; simpl in *.
      * rewrite <- app_assoc in Hfail. rewrite after_failure_app, Hclean in Hfail.
        simpl in Hfail. rewrite Hx in Hfail. injection Hfail as <- <-. auto.
      * apply IH; [|exact Hfail].
        rewrite <- app_assoc. rewrite after_failure_app, Hclean. simpl.
        rewrite Hx. reflexivity.
Qed.

(** The invocation on a non-empty batch: the two secrets, then the loop. *)
Lemma handler_nonempty (w : world) (rs : list json) :
  rs <> [] ->
  run w (sqs_event rs) =
    let t0 := [Log INFO "Status DLQ Lambda invocation received";
               Log INFO "Fetching ingestion API token from Secrets Manager";
               GetSecretValue (Some (TOKEN_SECRET_ARN w))] in
    match rbind (secretsmanager w 0 (Some (TOKEN_SECRET_ARN w))) secret_string with
    | Raise e =>
        (Raise e,
         t0 ++ [Log EXCEPTION "Failed to fetch ingestion API token from Secrets Manager";
                Log EXCEPTION "Aborting batch: could not fetch ingestion token"])
    | Ok tok =>
        let t1 := t0 ++ [Log INFO "Successfully fetched ingestion API token";
                         Log INFO "Fetching Origin Verify Secret token from Secrets Manager";
                         GetSecretValue (ORIGIN_VERIFY_ARN w)] in
        match secretsmanager w 1 (ORIGIN_VERIFY_ARN w) with
        | Raise e =>
            (Raise e,
             t1 ++ [Log EXCEPTION "Failed to fetch Origin Verify Secret from Secrets Manager";
                    Log EXCEPTION "Aborting batch: could not fetch Origin Verify Secret"])
        | Ok response =>
            match secret_string response with
            | Raise e =>
                (Raise e,
                 t1 ++ [Log INFO "Successfully fetched Origin Verify Secret";
                        Log EXCEPTION "Failed to fetch Origin Verify Secret from Secrets Manager";
                        Log EXCEPTION "Aborting batch: could not fetch Origin Verify Secret"])
            | Ok orig =>
                for_each rs (process_record w tok orig)
                         (t1 ++ [Log INFO "Successfully fetched Origin Verify Secret"])
            end
        end
    end.
Proof.
  intros Hrs. destruct rs as [|r rs]; [contradiction|].
  unfold run, handler, get_ingestion_token, get_origin_verify_secret,
    get_secret_value, try_except, log_info, log_exception.
  unfold bind, lift, emit, ret, raise. simpl.
  destruct (secretsmanager w 0 (Some (TOKEN_SECRET_ARN w))) as [[tok|]|e];
    simpl; try reflexivity.
  destruct (secretsmanager w 1 (ORIGIN_VERIFY_ARN w)) as [[orig|]|e];
    simpl; reflexivity.
Qed.

Lemma loop_fetches_no_secret (w : world) (tok orig : string) (rs : list json) :
  forall t,
    secret_fetches (snd (for_each rs (process_record w tok orig) t)) = secret_fetches t.
Proof.
  induction rs as [|r rs IH]; intros t; simpl; [reflexivity|].
  unfold bind.
  destruct (record_trace w tok orig r t)
    as [[e0 Hrun] | [[msg Hrun] | (doc & status & h & Hrun)]].
  - rewrite Hrun. reflexivity.
  - rewrite Hrun, IH, secret_fetches_app. apply app_nil_r.
  - rewrite Hrun.
    pose proof (patch_status_secret_fetches w doc status tok orig (t ++ [Log INFO h]))
      as Hq.
    rewrite secret_fetches_app in Hq. simpl in Hq. rewrite app_nil_r in Hq.
    destruct (patch_status w doc status tok orig (t ++ [Log INFO h])) as [[[]|e] t'];
      simpl in *; [rewrite IH|]; exact Hq.
Qed.

(** C2.  When a request of the invocation ends in an exception (a network
    error, a status outside 2xx, or any other failure of the call), the
    invocation raises that exception right after the error line of the
    request: no request follows, and the records that come after in the
    batch change nothing in the run. *)
Theorem C2_failed_patch_halts_batch (w : world) (rs post : list json) (e : exn)
    (rest : trace) :
  after_failure w 0 (snd (run w (sqs_event rs))) = Some (e, rest) ->
  fst (run w (sqs_event rs)) = Raise e /\
  rest = patch_log e /\
  requests rest = [] /\
  run w (sqs_event (rs ++ post)) = run w (sqs_event rs).
Proof.
  intros Hfail.
  destruct rs as [|r rs]; [discriminate|].
  assert (H1 : r :: rs <> []) by discriminate.
  assert (H2 : (r :: rs) ++ post <> []) by discriminate.
  rewrite (handler_nonempty w _ H2).
  rewrite (handler_nonempty w _ H1) in *. cbv zeta in *.
  destruct (rbind (secretsmanager w 0 (Some (TOKEN_SECRET_ARN w))) secret_string)
    as [tok|e0]; [|discriminate].
  destruct (secretsmanager w 1 (ORIGIN_VERIFY_ARN w)) as [response|e0];
    [|discriminate].
  destruct (secret_string response) as [orig|e0]; [|discriminate].
  match type of Hfail with
  | after_failure _ _ (snd (for_each _ _ ?t)) = _ => set (pro := t) in *
  end.
  destruct (loop_stops_at_failure w tok orig (r :: rs) pro e rest eq_refl Hfail)
    as [Hres ->].
  split; [exact Hres|]. split; [reflexivity|]. split; [apply patch_log_requests|].
  rewrite for_each_app.
  destruct (for_each (r :: rs) (process_record w tok orig) pro) as [[[]|e1] t'];
    [discriminate|reflexivity].
Qed.

(** C2 at the batch of section 8: two records, the management API unreachable. *)
Lemma C2_witness :
  fst (run Examples.unreachable
           (sqs_event [sqs_record (Examples.ecs_text "foo/bar.txt" "Object Created")]))
    = Raise (URLError "timed out") /\
  [Log ERROR "URLError while patching document status"]
    = patch_log (URLError "timed out") /\
  requests [Log ERROR "URLError while patching document status"] = [] /\
  run Examples.unreachable
      (sqs_event ([sqs_record (Examples.ecs_text "foo/bar.txt" "Object Created")]
                  ++ [sqs_record (Examples.ecs_text "docs/a.pdf" "Object Deleted")]))
    = run Examples.unreachable
          (sqs_event [sqs_record (Examples.ecs_text "foo/bar.txt" "Object Created")]).
Proof.
  apply (C2_failed_patch_halts_batch Examples.unreachable
           [sqs_record (Examples.ecs_text "foo/bar.txt" "Object Created")]
           [sqs_record (Examples.ecs_text "docs/a.pdf" "Object Deleted")]
           (URLError "timed out")
           [Log ERROR "URLError while patching document status"]).
  vm_compute. reflexivity.
Defined.

(** C3, as amended.  On a non-empty batch the ingestion token is fetched
    once, first; when that succeeds the origin-verification secret is fetched
    once; the loop over the records starts after both and fetches nothing.
    When either fetch fails the invocation raises without a request, whatever
    the records are. *)
Theorem C3_secrets_before_records (w : world) (rs : list json) :
  rs <> [] ->
  let out := run w (sqs_event rs) in
  match fetch w 0 (Some (TOKEN_SECRET_ARN w)) with
  | Raise e =>
      fst out = Raise e /\
      secret_fetches (snd out) = [Some (TOKEN_SECRET_ARN w)] /\
      requests (snd out) = [] /\
      forall rs', rs' <> [] -> run w (sqs_event rs') = out
  | Ok tok =>
      match fetch w 1 (ORIGIN_VERIFY_ARN w) with
      | Raise e =>
          fst out = Raise e /\
          each_fetched_once w (snd out) /\
          requests (snd out) = [] /\
          forall rs', rs' <> [] -> run w (sqs_event rs') = out
      | Ok orig =>
          each_fetched_once w (snd out) /\
          exists pro,
            each_fetched_once w pro /\ requests pro = [] /\
            out = for_each rs (process_record w tok orig) pro
      end
  end.
Proof.
  intros Hrs. cbv zeta. unfold fetch, each_fetched_once.
  rewrite (handler_nonempty w rs Hrs). cbv zeta.
  destruct (rbind (secretsmanager w 0 (Some (TOKEN_SECRET_ARN w))) secret_string)
    as [tok|e] eqn:Htok.
  2:{ repeat split; try reflexivity.
      intros rs' Hrs'. rewrite (handler_nonempty w rs' Hrs'). cbv zeta.
      rewrite Htok. reflexivity. }
  destruct (secretsmanager w 1 (ORIGIN_VERIFY_ARN w)) as [response|e] eqn:Horig;
    simpl rbind.
  2:{ repeat split; try reflexivity.
      intros rs' Hrs'. rewrite (handler_nonempty w rs' Hrs'). cbv zeta.
      rewrite Htok, Horig. reflexivity. }
  destruct (secret_string response) as [orig|e] eqn:Hstr.
  2:{ repeat split; try reflexivity.
      intros rs' Hrs'. rewrite (handler_nonempty w rs' Hrs'). cbv zeta.
      rewrite Htok, Horig, Hstr. reflexivity. }
  split.
  - rewrite loop_fetches_no_secret. reflexivity.
  - eexists. split; [|split; [|reflexivity]]; reflexivity.
Qed.

(** C3 at a batch of one record, with both secrets, and without Secrets
    Manager. *)
Lemma C3_witness :
  (each_fetched_once Examples.healthy
     (snd (run Examples.healthy (sqs_event [sqs_record Examples.other_text]))) /\
   exists pro,
     each_fetched_once Examples.healthy pro /\ requests pro = [] /\
     run Examples.healthy (sqs_event [sqs_record Examples.other_text])
       = for_each [sqs_record Examples.other_text]
                  (process_record Examples.healthy "token-1" "origin-1") pro) /\
  (fst (run Examples.no_secrets (sqs_event [sqs_record Examples.other_text]))
     = Raise (OtherError "AccessDeniedException") /\
   secret_fetches (snd (run Examples.no_secrets (sqs_event [sqs_record Examples.other_text])))
     = [Some "arn:ingestion-token"] /\
   requests (snd (run Examples.no_secrets (sqs_event [sqs_record Examples.other_text])))
     = [] /\
   forall rs', rs' <> [] ->
     run Examples.no_secrets (sqs_event rs')
       = run Examples.no_secrets (sqs_event [sqs_record Examples.other_text])).
Proof.
  split.
  - apply (C3_secrets_before_records Examples.healthy [sqs_record Examples.other_text]).
    discriminate.
  - apply (C3_secrets_before_records Examples.no_secrets [sqs_record Examples.other_text]).
    discriminate.
Defined.

(** C3, as stated for every invocation, fails: the invocation on an empty
    batch fetches no secret at all, and the invocation whose token fetch is
    refused never fetches the origin-verification secret. *)
Lemma C3_not_every_invocation_fetches :
  ~ each_fetched_once Examples.healthy (snd (run Examples.healthy (sqs_event []))) /\
  secret_fetches (snd (run Examples.healthy (sqs_event []))) = [] /\
  ~ each_fetched_once Examples.no_secrets
      (snd (run Examples.no_secrets (sqs_event [sqs_record Examples.other_text]))).
Proof.
  split; [|split].
  - intros H. vm_compute in H. discriminate.
  - reflexivity.
  - intros H. vm_compute in H. discriminate.
Qed.

(** *** Computations see a trace through its counts only *)

Lemma same_counts_app (t1 t2 d : trace) :
  same_counts t1 t2 -> same_counts (t1 ++ d) (t2 ++ d).
Proof.
  intros [H1 H2]. split.
  - rewrite !requests_app, !length_app. congruence.
  - rewrite !secret_fetches_app, !length_app. congruence.
Qed.

Lemma framed_ret {A} (a : A) : framed (ret a : M A).
Proof. intros t1 t2 _. exists (Ok a), []. rewrite !app_nil_r. auto. Qed.

Lemma framed_raise {A} (e : exn) : framed (raise e : M A).
Proof. intros t1 t2 _. exists (Raise e), []. rewrite !app_nil_r. auto. Qed.

Lemma framed_lift {A} (r : result A) : framed (lift r : M A).
Proof. intros t1 t2 _. exists r, []. rewrite !app_nil_r. auto. Qed.

Lemma framed_emit (e : event) : framed (emit e).
Proof. intros t1 t2 _. exists (Ok tt), [e]. auto. Qed.

Lemma framed_bind {A B} (m : M A) (k : A -> M B) :
  framed m -> (forall a, framed (k a)) -> framed (bind m k).
Proof.
  intros Hm Hk t1 t2 Hs. unfold bind.
  destruct (Hm t1 t2 Hs) as (r & d & -> & ->).
  destruct r as [a|e].
  - destruct (Hk a _ _ (same_counts_app _ _ d Hs)) as (r' & d' & -> & ->).
    exists r', (d ++ d'). rewrite !app_assoc. auto.
  - exists (Raise e), d. auto.
Qed.

Lemma framed_try_except {A} (m : M A) (h : exn -> M A) :
  framed m -> (forall e, framed (h e)) -> framed (try_except m h).
Proof.
  intros Hm Hh t1 t2 Hs. unfold try_except.
  destruct (Hm t1 t2 Hs) as (r & d & -> & ->).
  destruct r as [a|e].
  - exists (Ok a), d. auto.
  - destruct (Hh e _ _ (same_counts_app _ _ d Hs)) as (r' & d' & -> & ->).
    exists r', (d ++ d'). rewrite !app_assoc. auto.
Qed.

Lemma framed_for_each {A} (xs : list A) (body : A -> M unit) :
  (forall x, framed (body x)) -> framed (for_each xs body).
Proof.
  intros Hbody. induction xs as [|x xs IH]; simpl.
  - apply framed_ret.
  - apply framed_bind; auto.
Qed.

Lemma framed_urlopen (w : world) (req : Request) (timeout : Z) :
  framed (urlopen w req timeout).
Proof.
  intros t1 t2 [Hr _]. unfold urlopen. cbv zeta.
  rewrite !count_urlopen, Hr.
  destruct (management_api w _ req) as [code body|reason|e];
    [destruct (is_2xx code)| |]; eauto.
Qed.

Lemma framed_get_secret_value (w : world) (id : option string) :
  framed (get_secret_value w id).
Proof.
  intros t1 t2 [_ Hs]. unfold get_secret_value.
  rewrite !count_get_secret, Hs. eauto.
Qed.

Create HintDb framed.
#[local] Hint Resolve framed_ret framed_raise framed_lift framed_emit
  framed_urlopen framed_get_secret_value : framed.

(** Walks through a computation written with [bind], [try_except] and
    pattern matching. *)
Ltac framed_step :=
  first
    [ apply framed_bind
    | apply framed_try_except
    | apply framed_for_each
    | solve [auto with framed]
    | match goal with
      | |- forall _, _ => intro
      | |- framed (match ?x with _ => _ end) => destruct x
      end ].

Lemma framed_process_record (w : world) (tok orig : string) (record : json) :
  framed (process_record w tok orig record).
Proof.
  unfold process_record, handle_ecs_task_failure, handle_run_task_dlq, patch_status,
    new_Request, log_info, log_error.
  repeat framed_step.
Qed.

(** C6.  A record whose body is not JSON is logged and passed over: its
    processing returns normally after one error line, the loop goes on with
    the next record, and the invocation ends as it would without the record,
    with the same secret fetches and requests. *)
Theorem C6_bad_json_skipped (w : world) (tok orig : string) (record : json)
    (t : trace) (rest pre post : list json) :
  bad_json_body w record ->
  process_record w tok orig record t
    = (Ok tt, t ++ [Log ERROR "Bad JSON body in SQS message; skipping"]) /\
  for_each (record :: rest) (process_record w tok orig) t
    = for_each rest (process_record w tok orig)
               (t ++ [Log ERROR "Bad JSON body in SQS message; skipping"]) /\
  (pre ++ post <> [] ->
   fst (run w (sqs_event (pre ++ record :: post)))
     = fst (run w (sqs_event (pre ++ post))) /\
   effects (snd (run w (sqs_event (pre ++ record :: post))))
     = effects (snd (run w (sqs_event (pre ++ post))))).
Proof.
  intros [s [Hb Hl]].
  assert (Hrec : forall tk og t0,
             process_record w tk og record t0
             = (Ok tt, t0 ++ [Log ERROR "Bad JSON body in SQS message; skipping"])).
  { intros tk og t0. rewrite process_record_run, Hb. simpl. rewrite Hl. reflexivity. }
  assert (Hloop : forall tk og rs t0,
             for_each (record :: rs) (process_record w tk og) t0
             = for_each rs (process_record w tk og)
                 (t0 ++ [Log ERROR "Bad JSON body in SQS message; skipping"])).
  { intros tk og rs t0. simpl. unfold bind. rewrite Hrec. reflexivity. }
  split; [apply Hrec|]. split; [apply Hloop|].
  - intros Hne.
    assert (Hne' : pre ++ record :: post <> []) by (destruct pre; discriminate).
    rewrite (handler_nonempty w _ Hne), (handler_nonempty w _ Hne'). cbv zeta.
    destruct (rbind (secretsmanager w 0 (Some (TOKEN_SECRET_ARN w))) secret_string)
      as [tk|e]; [|auto].
    destruct (secretsmanager w 1 (ORIGIN_VERIFY_ARN w)) as [response|e]; [|auto].
    destruct (secret_string response) as [og|e]; [|auto].
    rewrite !for_each_app.
    destruct (for_each pre (process_record w tk og) _) as [[[]|e] t']; [|auto].
    rewrite Hloop.
    assert (Hs : same_counts
                   (t' ++ [Log ERROR "Bad JSON body in SQS message; skipping"]) t').
    { split.
      - rewrite requests_app. simpl. rewrite app_nil_r. reflexivity.
      - rewrite secret_fetches_app. simpl. rewrite app_nil_r. reflexivity. }
    destruct (framed_for_each post (process_record w tk og)
                (framed_process_record w tk og) _ _ Hs) as (r & d & -> & ->).
    split; [reflexivity|]. simpl snd.
    rewrite !effects_app. simpl. rewrite app_nil_r. reflexivity.
Qed.

(** C6 at a batch whose first body is not JSON. *)
Lemma C6_witness :
  process_record Examples.healthy "token-1" "origin-1" (sqs_record "not json") []
    = (Ok tt, [] ++ [Log ERROR "Bad JSON body in SQS message; skipping"]) /\
  for_each (sqs_record "not json"
              :: [sqs_record (Examples.ecs_text "foo/bar.txt" "Object Created")])
           (process_record Examples.healthy "token-1" "origin-1") []
    = for_each [sqs_record (Examples.ecs_text "foo/bar.txt" "Object Created")]
               (process_record Examples.healthy "token-1" "origin-1")
               ([] ++ [Log ERROR "Bad JSON body in SQS message; skipping"]) /\
  ([] ++ [sqs_record (Examples.ecs_text "foo/bar.txt" "Object Created")] <> [] ->
   fst (run Examples.healthy
            (sqs_event ([] ++ sqs_record "not json"
                           :: [sqs_record (Examples.ecs_text "foo/bar.txt" "Object Created")])))
     = fst (run Examples.healthy
                (sqs_event ([] ++ [sqs_record (Examples.ecs_text "foo/bar.txt" "Object Created")]))) /\
   effects (snd (run Examples.healthy
            (sqs_event ([] ++ sqs_record "not json"
                           :: [sqs_record (Examples.ecs_text "foo/bar.txt" "Object Created")]))))
     = effects (snd (run Examples.healthy
                (sqs_event ([] ++ [sqs_record (Examples.ecs_text "foo/bar.txt" "Object Created")]))))).
Proof.
  apply (C6_bad_json_skipped Examples.healthy "token-1" "origin-1"
           (sqs_record "not json") []
           [sqs_record (Examples.ecs_text "foo/bar.txt" "Object Created")]
           []
           [sqs_record (Examples.ecs_text "foo/bar.txt" "Object Created")]).
  exists "not json". split; reflexivity.
Defined.

(** C7.  A message that yields a report (both values are extractable and
    the request can be constructed) issues exactly one request: a PATCH to
    [ALB_BASE_URL], then [DOCS_API_PATH] ([/api/documents] when the variable
    is not set), a slash and the stem of the object key; its body is the JSON
    object with the one member [status], as [json.dumps] writes it, and its
    headers are [Content-Type: application/json], the token under
    [x-api-token] and the secret under [X-Origin-Verify]; it is sent with a
    timeout of 30 seconds.  In an invocation on that message alone, the token
    and the secret of the headers are the two fetched secrets. *)
Theorem C7_one_patch_per_report (w : world) (tok orig : string)
    (record payload : json) (key et : string) (t : trace) :
  message_payload w record payload ->
  reportable payload key et ->
  let url :=
    (env_ALB_BASE_URL (os_environ w)
     ++ match env_DOCS_API_PATH (os_environ w) with
        | Some path => path
        | None => "/api/documents"
        end
     ++ "/" ++ stem_of_name (path_name key))%string in
  let body :=
    ("{" ++ String "034"%char ("status" ++ String "034"%char (": "
         ++ String "034"%char
              ((if String.eqb et "Object Created" then "failed" else "delete_failed")
               ++ String "034"%char "}"))))%string in
  let req :=
    mkRequest url body "PATCH"
      [("Content-Type", "application/json");
       ("x-api-token", tok);
       ("X-Origin-Verify", orig)] in
  request_Request w url body "PATCH" = Ok tt ->
  requests (snd (process_record w tok orig record t)) = requests t ++ [req] /\
  In (UrlOpen req 30) (snd (process_record w tok orig record t)) /\
  (fetch w 0 (Some (TOKEN_SECRET_ARN w)) = Ok tok ->
   fetch w 1 (ORIGIN_VERIFY_ARN w) = Ok orig ->
   requests (snd (run w (sqs_event [record]))) = [req]).
Proof.
  intros Hm Hr. cbv zeta. intros Hacc.
  match goal with
  | |- _ = _ ++ [?r] /\ _ =>
      assert (Hreq : patch_request w (stem_of_name (path_name key)) (status_of et)
                                   tok orig = r)
  end.
  { unfold patch_request, ALB_BASE_URL, DOCS_API_PATH, json_dumps_pair, dquote,
      status_of.
    destruct (String.eqb et "Object Created"); reflexivity. }
  assert (Hacc' : accepts w (patch_request w (stem_of_name (path_name key))
                                           (status_of et) tok orig) = Ok tt).
  { rewrite Hreq. exact Hacc. }
  assert (Hone : forall t0,
    requests (snd (process_record w tok orig record t0))
      = requests t0 ++ [patch_request w (stem_of_name (path_name key)) (status_of et)
                                      tok orig]).
  { intros t0. rewrite (reportable_requests w tok orig record payload key et t0 Hm Hr).
    rewrite Hacc'. reflexivity. }
  rewrite <- Hreq.
  split; [apply Hone|]. split.
  - destruct (reportable_run w tok orig record payload key et t Hm Hr) as [h ->].
    rewrite patch_status_run. cbv zeta. rewrite Hacc'. cbn [snd].
    apply in_or_app. right. simpl. right. left. reflexivity.
  - unfold fetch. intros Htok Horig.
    rewrite (handler_nonempty w [record]) by discriminate. cbv zeta.
    rewrite Htok.
    destruct (secretsmanager w 1 (ORIGIN_VERIFY_ARN w)) as [response|e];
      simpl in Horig; [|discriminate].
    rewrite Horig. simpl for_each. unfold bind.
    match goal with
    | |- context [process_record w tok orig record ?t0] =>
        specialize (Hone t0);
        destruct (process_record w tok orig record t0) as [[[]|e] t']
    end; simpl in *; exact Hone.
Qed.

(** C7 at the message of section 8: key [foo/bar.txt], type [Object Created]. *)
Lemma C7_witness :
  let req :=
    mkRequest "https://alb.internal/api/documents/bar"
              ("{" ++ String "034"%char ("status" ++ String "034"%char (": "
                   ++ String "034"%char ("failed" ++ String "034"%char "}"))))%string
              "PATCH"
              [("Content-Type", "application/json");
               ("x-api-token", "token-1");
               ("X-Origin-Verify", "origin-1")] in
  requests (snd (process_record Examples.healthy "token-1" "origin-1"
                   (sqs_record (Examples.ecs_text "foo/bar.txt" "Object Created")) []))
    = [req] /\
  In (UrlOpen req 30)
     (snd (process_record Examples.healthy "token-1" "origin-1"
             (sqs_record (Examples.ecs_text "foo/bar.txt" "Object Created")) [])) /\
  requests (snd (run Examples.healthy
                     (sqs_event [sqs_record
                                   (Examples.ecs_text "foo/bar.txt" "Object Created")])))
    = [req].
Proof.
  assert (Hm : message_payload Examples.healthy
                 (sqs_record (Examples.ecs_text "foo/bar.txt" "Object Created"))
                 (Examples.ecs_payload "foo/bar.txt" "Object Created")).
  { exists (Examples.ecs_text "foo/bar.txt" "Object Created"). split; reflexivity. }
  assert (Hr : reportable (Examples.ecs_payload "foo/bar.txt" "Object Created")
                          "foo/bar.txt" "Object Created").
  { eexists. split.
    - eapply overrides_ecs; reflexivity.
    - eexists _, _, _. split; [reflexivity|]. split.
      + eexists. split; [reflexivity|]. split; [reflexivity|].
        repeat constructor; eexists; split; reflexivity.
      + repeat split; auto. discriminate. }
  destruct (C7_one_patch_per_report Examples.healthy "token-1" "origin-1"
              (sqs_record (Examples.ecs_text "foo/bar.txt" "Object Created"))
              (Examples.ecs_payload "foo/bar.txt" "Object Created")
              "foo/bar.txt" "Object Created" [] Hm Hr eq_refl) as (H1 & H2 & H3).
  split; [exact H1|]. split; [exact H2|]. exact (H3 eq_refl eq_refl).
Defined.

(* ------------------------------------------------------------------------- *)
(** ** Further properties of the DLQ status reporter                          *)
(* ------------------------------------------------------------------------- *)

(** *** The document identifier *)

Lemma contains_char_app (c : ascii) (a b : string) :
  contains_char c (a ++ b) = contains_char c a || contains_char c b.
Proof.
  induction a as [|x a IH]; simpl; [reflexivity|].
  rewrite IH, orb_assoc. reflexivity.
Qed.

Lemma split_slash_no_slash (s : string) :
  forall cur,
    contains_char "/" cur = false ->
    Forall (fun x => contains_char "/" x = false) (split_slash s cur).
Proof.
  induction s as [|c s IH]; intros cur Hcur; simpl.
  - constructor; [exact Hcur|constructor].
  - destruct (Ascii.eqb c "/") eqn:Hc.
    + constructor; [exact Hcur|]. apply IH. reflexivity.
    + apply IH. rewrite contains_char_app, Hcur.
      change (contains_char "/" (String c EmptyString))
        with (Ascii.eqb "/" c || false).
      rewrite Ascii.eqb_sym, Hc. reflexivity.
Qed.

Lemma last_Forall {A} (P : A -> Prop) (l : list A) (d : A) :
  Forall P l -> P d -> P (last l d).
Proof.
  induction 1 as [|x l Hx Hl IH]; intros Hd; simpl; [exact Hd|].
  destruct l; [exact Hx|]. apply IH. exact Hd.
Qed.

Lemma path_name_no_slash (s : string) : contains_char "/" (path_name s) = false.
Proof.
  unfold path_name, path_parts.
  apply (last_Forall (fun x => contains_char "/" x = false)); [|reflexivity].
  apply incl_Forall with (l1 := split_slash s EmptyString).
  - intros x Hx. apply filter_In in Hx. tauto.
  - apply split_slash_no_slash. reflexivity.
Qed.

Lemma substring_contains (c : ascii) (s : string) :
  forall n m, contains_char c (String.substring n m s) = true -> contains_char c s = true.
Proof.
  induction s as [|x s IH]; intros n m; simpl.
  - destruct n, m; simpl; auto.
  - destruct n as [|n].
    + destruct m as [|m]; simpl; [discriminate|].
      destruct (Ascii.eqb c x); simpl; [reflexivity|]. apply IH.
    + intros H. apply IH in H. rewrite H. apply orb_true_r.
Qed.

Lemma stem_no_slash (s : string) :
  contains_char "/" (stem_of_name (path_name s)) = false.
Proof.
  pose proof (path_name_no_slash s) as Hn.
  unfold stem_of_name.
  destruct (rfind_dot (path_name s) 0) as [i|]; [|exact Hn].
  destruct ((0 <? i) && (i <? String.length (path_name s) - 1))%nat; [|exact Hn].
  destruct (contains_char "/" (String.substring 0 i (path_name s))) eqn:H;
    [|reflexivity].
  apply substring_contains in H. congruence.
Qed.

Lemma string_app_assoc (a b c : string) : ((a ++ b) ++ c = a ++ (b ++ c))%string.
Proof. induction a as [|x a IH]; simpl; [reflexivity|]. rewrite IH. reflexivity. Qed.

Lemma string_length_app (a b : string) :
  String.length (a ++ b) = String.length a + String.length b.
Proof. induction a as [|x a IH]; simpl; [reflexivity|]. rewrite IH. reflexivity. Qed.

Lemma substring_prefix (a b : string) :
  String.substring 0 (String.length a) (a ++ b) = a.
Proof.
  induction a as [|x a IH]; simpl.
  - destruct b; reflexivity.
  - rewrite IH. reflexivity.
Qed.

Lemma split_slash_plain (f : string) :
  forall cur, contains_char "/" f = false -> split_slash f cur = [(cur ++ f)%string].
Proof.
  induction f as [|c f IH]; intros cur H; simpl.
  - replace (cur ++ EmptyString)%string with cur; [reflexivity|].
    induction cur as [|x cur IHc]; simpl; [reflexivity|]. rewrite <- IHc. reflexivity.
  - change (contains_char "/" (String c f))
      with (Ascii.eqb "/" c || contains_char "/" f) in H.
    apply orb_false_iff in H as [Hc Hf].
    rewrite Ascii.eqb_sym, Hc, (IH _ Hf), string_app_assoc. reflexivity.
Qed.

Lemma split_slash_last (a f : string) :
  forall cur, exists l,
    split_slash (a ++ String "/" f) cur = l ++ split_slash f EmptyString.
Proof.
  induction a as [|c a IH]; intros cur.
  - exists [cur]. reflexivity.
  - simpl. destruct (Ascii.eqb c "/").
    + destruct (IH EmptyString) as [l ->]. exists (cur :: l). reflexivity.
    + apply IH.
Qed.

(** A final component is the name of the path. *)
Lemma path_name_last (dir f : string) :
  contains_char "/" f = false -> f <> EmptyString -> f <> "." ->
  path_name (dir ++ String "/" f) = f.
Proof.
  intros Hf Hne Hdot. unfold path_name, path_parts.
  destruct (split_slash_last dir f EmptyString) as [l ->].
  rewrite (split_slash_plain f EmptyString Hf). simpl.
  rewrite filter_app. simpl.
  destruct (String.eqb_spec f EmptyString) as [?|_]; [contradiction|].
  destruct (String.eqb_spec f ".") as [?|_]; [contradiction|].
  simpl. apply last_last.
Qed.

Lemma rfind_dot_none (s : string) :
  forall i, contains_char "." s = false -> rfind_dot s i = None.
Proof.
  induction s as [|c s IH]; intros i H; simpl; [reflexivity|].
  change (contains_char "." (String c s))
    with (Ascii.eqb "." c || contains_char "." s) in H.
  apply orb_false_iff in H as [Hc Hs].
  rewrite (IH _ Hs), Ascii.eqb_sym, Hc. reflexivity.
Qed.

Lemma rfind_dot_app (a b : string) :
  forall i,
    rfind_dot (a ++ b) i =
      match rfind_dot b (i + String.length a) with
      | Some j => Some j
      | None => rfind_dot a i
      end.
Proof.
  induction a as [|c a IH]; intros i; simpl.
  - rewrite Nat.add_0_r. destruct (rfind_dot b i); reflexivity.
  - rewrite IH, Nat.add_succ_r. simpl.
    destruct (rfind_dot b (S (i + String.length a))); reflexivity.
Qed.

(** The stem of [name.ext] is [name]. *)
Lemma stem_of_name_ext (name ext : string) :
  name <> EmptyString -> ext <> EmptyString -> contains_char "." ext = false ->
  stem_of_name (name ++ String "." ext) = name.
Proof.
  intros Hname Hext Hdot. unfold stem_of_name.
  rewrite rfind_dot_app. simpl rfind_dot.
  rewrite (rfind_dot_none ext _ Hdot). simpl.
  rewrite string_length_app. simpl String.length.
  assert (H1 : (0 <? String.length name)%nat = true).
  { destruct name; [contradiction|reflexivity]. }
  assert (H2 : (String.length name
                <? String.length name + S (String.length ext) - 1)%nat = true).
  { apply Nat.ltb_lt. destruct ext; [contradiction|]. simpl. lia. }
  rewrite H1, H2. simpl. apply substring_prefix.
Qed.

(** X1.  The document identifier of a key [dir/name.ext] is [name]: the
    directories and the last extension of the key do not reach the request,
    so keys that differ in them only are reported under the same URL.  The
    request for [name] is the one request of the record when it can be
    constructed; otherwise the record raises the exception of the constructor
    without a request. *)
Theorem X1_document_id_drops_directory_and_extension (w : world) (tok orig : string)
    (record payload : json) (dir name ext et : string) (t : trace) :
  message_payload w record payload ->
  reportable payload (dir ++ String "/" (name ++ String "." ext)) et ->
  name <> EmptyString -> contains_char "/" name = false ->
  ext <> EmptyString -> contains_char "/" ext = false -> contains_char "." ext = false ->
  let req := patch_request w name (status_of et) tok orig in
  let out := process_record w tok orig record t in
  match accepts w req with
  | Ok _ => requests (snd out) = requests t ++ [req]
  | Raise e => fst out = Raise e /\ requests (snd out) = requests t
  end.
Proof.
  intros Hm Hr Hname Hslash Hext Hslash' Hdot. cbv zeta.
  assert (Hstem : stem_of_name (path_name (dir ++ String "/" (name ++ String "." ext)))
                  = name).
  { rewrite path_name_last.
    - apply (stem_of_name_ext name ext Hname Hext Hdot).
    - rewrite contains_char_app, Hslash.
      change (contains_char "/" (String "." ext)) with (contains_char "/" ext).
      rewrite Hslash'. reflexivity.
    - destruct name; [contradiction|discriminate].
    - destruct name as [|c [|c' name]]; [contradiction| |discriminate].
      destruct ext; [contradiction|discriminate]. }
  pose proof (reportable_requests w tok orig record payload _ et t Hm Hr) as Hreq.
  pose proof (fun e => reportable_refused w tok orig record payload _ et t e Hm Hr)
    as Href.
  rewrite Hstem in Hreq, Href.
  destruct (accepts w (patch_request w name (status_of et) tok orig)) as [[]|e].
  - exact Hreq.
  - split; [apply Href; reflexivity|]. rewrite Hreq. apply app_nil_r.
Qed.

Lemma ecs_payload_reportable (key et : string) :
  key <> EmptyString -> et = "Object Created" \/ et = "Object Deleted" ->
  reportable (Examples.ecs_payload key et) key et.
Proof.
  intros Hkey Het. eexists. split.
  - eapply overrides_ecs; reflexivity.
  - eexists _, _, _. split; [reflexivity|]. split.
    + eexists. split; [reflexivity|]. split; [reflexivity|].
      repeat constructor; eexists; split; reflexivity.
    + repeat split; auto.
Qed.

(** X1 at the key [docs/a.pdf]. *)
Lemma X1_witness :
  requests (snd (process_record Examples.healthy "token-1" "origin-1"
                   (sqs_record (Examples.ecs_text "docs/a.pdf" "Object Deleted")) []))
    = requests [] ++ [patch_request Examples.healthy "a" (status_of "Object Deleted")
                                    "token-1" "origin-1"].
Proof.
  refine (X1_document_id_drops_directory_and_extension
            Examples.healthy "token-1" "origin-1"
            (sqs_record (Examples.ecs_text "docs/a.pdf" "Object Deleted"))
            (Examples.ecs_payload "docs/a.pdf" "Object Deleted")
            "docs" "a" "pdf" "Object Deleted" [] _ _ _ _ _ _ _).
  - exists (Examples.ecs_text "docs/a.pdf" "Object Deleted"). split; reflexivity.
  - apply ecs_payload_reportable; [discriminate|auto].
  - discriminate.
  - reflexivity.
  - discriminate.
  - reflexivity.
  - reflexivity.
Defined.

(** *** Whole batches *)

Lemma record_requests (w : world) (tok orig : string) (record : json) (t : trace) :
  exists reqs,
    may_report w tok orig record reqs /\
    requests (snd (process_record w tok orig record t)) = requests t ++ reqs /\
    (fst (process_record w tok orig record t) = Ok tt ->
     report_of w tok orig record reqs).
Proof.
  destruct (record_cases w tok orig record t)
    as [(payload & key & et & h & Hm & Hr & _) | (Hno & [[e Hrun] | [msg Hrun]])].
  - pose proof (reportable_requests w tok orig record payload key et t Hm Hr) as Hreq.
    pose proof (fun e => reportable_refused w tok orig record payload key et t e Hm Hr)
      as Href.
    destruct (accepts w (patch_request w (stem_of_name (path_name key)) (status_of et)
                                       tok orig)) as [[]|e].
    + eexists. split; [|split; [exact Hreq|]].
      * right. exists payload, key, et. repeat split; [exact Hm|exact Hr].
      * intros _. left. exists payload, key, et. repeat split; [exact Hm|exact Hr].
    + exists []. split; [left; reflexivity|]. split; [exact Hreq|].
      rewrite (Href e eq_refl). discriminate.
  - exists []. split; [left; reflexivity|]. split.
    + rewrite Hrun, app_nil_r. reflexivity.
    + intros _. right. auto.
  - exists []. split; [left; reflexivity|]. split.
    + rewrite Hrun. simpl. rewrite requests_app. reflexivity.
    + intros _. right. auto.
Qed.

(** The loop issues at most the reports of the records it reaches, in order;
    when it ends normally it reached every record and issued the report of
    each reportable one. *)
Lemma loop_reports (w : world) (tok orig : string) (rs : list json) :
  forall t,
    exists reached rest reqss,
      rs = reached ++ rest /\
      Forall2 (may_report w tok orig) reached reqss /\
      requests (snd (for_each rs (process_record w tok orig) t))
        = requests t ++ concat reqss /\
      (fst (for_each rs (process_record w tok orig) t) = Ok tt ->
       rest = [] /\ Forall2 (report_of w tok orig) reached reqss).
Proof.
  induction rs as [|r rs IH]; intros t.
  - exists [], [], []. simpl. rewrite app_nil_r. repeat split; auto.
  - destruct (record_requests w tok orig r t) as (reqs & Hmay & Hreq & Hrep).
    simpl for_each. unfold bind.
    destruct (process_record w tok orig r t) as [[[]|e] t1] eqn:Hrun;
      simpl in Hreq, Hrep.
    + destruct (IH t1) as (reached & rest & reqss & -> & Hall & Hrs & Hok).
      exists (r :: reached), rest, (reqs :: reqss). split; [reflexivity|].
      split; [constructor; assumption|]. split.
      * rewrite Hrs, Hreq. simpl. rewrite app_assoc. reflexivity.
      * intros H. destruct (Hok H) as [-> Hall']. split; [reflexivity|].
        constructor; auto.
    + exists [r], rs, [reqs]. split; [reflexivity|].
      split; [constructor; [assumption|constructor]|]. split; [|discriminate].
      simpl. rewrite app_nil_r. exact Hreq.
Qed.

(** X2.  When the invocation on a non-empty batch returns normally, both
    secrets were fetched and the requests it issued are exactly the reports
    of the reportable records, one each, in the order of the batch. *)
Theorem X2_normal_return_reports_in_order (w : world) (rs : list json) :
  rs <> [] ->
  fst (run w (sqs_event rs)) = Ok tt ->
  exists tok orig reqss,
    fetch w 0 (Some (TOKEN_SECRET_ARN w)) = Ok tok /\
    fetch w 1 (ORIGIN_VERIFY_ARN w) = Ok orig /\
    Forall2 (report_of w tok orig) rs reqss /\
    requests (snd (run w (sqs_event rs))) = concat reqss.
Proof.
  intros Hrs. unfold fetch. rewrite (handler_nonempty w rs Hrs). cbv zeta.
  destruct (rbind (secretsmanager w 0 (Some (TOKEN_SECRET_ARN w))) secret_string)
    as [tok|e]; [|discriminate].
  destruct (secretsmanager w 1 (ORIGIN_VERIFY_ARN w)) as [response|e];
    [|discriminate]. simpl rbind.
  destruct (secret_string response) as [orig|e]; [|discriminate].
  intros Hok.
  match goal with
  | |- context [for_each rs _ ?t0] =>
      destruct (loop_reports w tok orig rs t0)
        as (reached & rest & reqss & Heq & _ & Hreq & Hrest)
  end.
  destruct (Hrest Hok) as [-> Hall]. rewrite app_nil_r in Heq. subst reached.
  exists tok, orig, reqss. repeat split; auto.
Qed.

(** X2 at a batch of a message that is not JSON, a reportable message and a
    message of neither shape. *)
Lemma X2_witness :
  exists tok orig reqss,
    fetch Examples.healthy 0 (Some (TOKEN_SECRET_ARN Examples.healthy)) = Ok tok /\
    fetch Examples.healthy 1 (ORIGIN_VERIFY_ARN Examples.healthy) = Ok orig /\
    Forall2 (report_of Examples.healthy tok orig)
            [sqs_record "not json";
             sqs_record (Examples.ecs_text "foo/bar.txt" "Object Created");
             sqs_record Examples.other_text] reqss /\
    requests (snd (run Examples.healthy
                       (sqs_event [sqs_record "not json";
                                   sqs_record (Examples.ecs_text "foo/bar.txt" "Object Created");
                                   sqs_record Examples.other_text])))
      = concat reqss.
Proof.
  apply (X2_normal_return_reports_in_order Examples.healthy
           [sqs_record "not json";
            sqs_record (Examples.ecs_text "foo/bar.txt" "Object Created");
            sqs_record Examples.other_text]).
  - discriminate.
  - reflexivity.
Defined.

Lemma may_report_length (w : world) (tok orig : string) (record : json)
    (reqs : list Request) :
  may_report w tok orig record reqs -> List.length reqs <= 1.
Proof.
  intros [-> | (p & k & e & _ & _ & ->)]; simpl; lia.
Qed.

Lemma reports_length (w : world) (tok orig : string) (rs : list json)
    (reqss : list (list Request)) :
  Forall2 (may_report w tok orig) rs reqss ->
  List.length (concat reqss) <= List.length rs.
Proof.
  induction 1 as [|r reqs rs reqss Hr _ IH]; simpl; [lia|].
  rewrite length_app. apply may_report_length in Hr. lia.
Qed.

(** X3.  An invocation issues at most one request per record of its batch
    and calls Secrets Manager at most twice. *)
Theorem X3_at_most_one_request_per_record (w : world) (rs : list json) :
  List.length (requests (snd (run w (sqs_event rs)))) <= List.length rs /\
  List.length (secret_fetches (snd (run w (sqs_event rs)))) <= 2.
Proof.
  destruct rs as [|r rs]; [simpl; lia|].
  rewrite (handler_nonempty w (r :: rs)) by discriminate. cbv zeta.
  destruct (rbind (secretsmanager w 0 (Some (TOKEN_SECRET_ARN w))) secret_string)
    as [tok|e]; [|simpl; lia].
  destruct (secretsmanager w 1 (ORIGIN_VERIFY_ARN w)) as [response|e];
    [|simpl; lia].
  destruct (secret_string response) as [orig|e]; [|simpl; lia].
  rewrite loop_fetches_no_secret. split; [|simpl; lia].
  match goal with
  | |- context [for_each _ _ ?t0] =>
      destruct (loop_reports w tok orig (r :: rs) t0)
        as (reached & rest & reqss & Heq & Hall & Hreq & _)
  end.
  eapply Nat.le_trans;
    [apply Nat.eq_le_incl; apply (f_equal (@List.length Request)); exact Hreq|].
  apply reports_length in Hall.
  apply (f_equal (@List.length json)) in Heq. rewrite length_app in Heq.
  simpl in *. lia.
Qed.

(** X4.  Every request of an invocation is a status report: a PATCH of
    [failed] or [delete_failed] under the documents path, for an identifier
    without a slash, with the two secrets fetched at the start of the
    invocation in its headers. *)
Theorem X4_every_request_is_a_status_report (w : world) (rs : list json)
    (req : Request) :
  In req (requests (snd (run w (sqs_event rs)))) ->
  exists tok orig id,
    fetch w 0 (Some (TOKEN_SECRET_ARN w)) = Ok tok /\
    fetch w 1 (ORIGIN_VERIFY_ARN w) = Ok orig /\
    contains_char "/" id = false /\
    (req = patch_request w id "failed" tok orig \/
     req = patch_request w id "delete_failed" tok orig).
Proof.
  destruct rs as [|r rs]; [intros []|].
  unfold fetch. rewrite (handler_nonempty w (r :: rs)) by discriminate. cbv zeta.
  destruct (rbind (secretsmanager w 0 (Some (TOKEN_SECRET_ARN w))) secret_string)
    as [tok|e]; [|intros []].
  destruct (secretsmanager w 1 (ORIGIN_VERIFY_ARN w)) as [response|e];
    [|intros []]. simpl rbind.
  destruct (secret_string response) as [orig|e]; [|intros []].
  match goal with
  | |- context [for_each _ _ ?t0] =>
      destruct (loop_reports w tok orig (r :: rs) t0)
        as (reached & rest & reqss & _ & Hall & Hreq & _)
  end.
  intros Hin0.
  pose proof (eq_ind _ (fun l => In req l) Hin0 _ Hreq) as Hin. simpl in Hin.
  exists tok, orig.
  clear - Hall Hin. induction Hall as [|x reqs xs reqss Hx _ IH]; [destruct Hin|].
  simpl in Hin. apply in_app_or in Hin as [Hin | Hin]; [|exact (IH Hin)].
  destruct Hx as [-> | (p & k & e & _ & _ & ->)]; [destruct Hin|].
  destruct Hin as [<- | []].
  exists (stem_of_name (path_name k)).
  repeat split; auto using stem_no_slash.
  unfold status_of. destruct (String.eqb e "Object Created"); auto.
Qed.

(** X4 at the request of the batch of section 8. *)
Lemma X4_witness :
  exists tok orig id,
    fetch Examples.healthy 0 (Some (TOKEN_SECRET_ARN Examples.healthy)) = Ok tok /\
    fetch Examples.healthy 1 (ORIGIN_VERIFY_ARN Examples.healthy) = Ok orig /\
    contains_char "/" id = false /\
    (patch_request Examples.healthy "bar" "failed" "token-1" "origin-1"
       = patch_request Examples.healthy id "failed" tok orig \/
     patch_request Examples.healthy "bar" "failed" "token-1" "origin-1"
       = patch_request Examples.healthy id "delete_failed" tok orig).
Proof.
  apply (X4_every_request_is_a_status_report Examples.healthy
           [sqs_record (Examples.ecs_text "foo/bar.txt" "Object Created")]).
  vm_compute. left. reflexivity.
Defined.

Lemma loop_extends (w : world) (tok orig : string) (rs : list json) (t : trace) :
  exists r d, for_each rs (process_record w tok orig) t = (r, t ++ d).
Proof.
  assert (Hs : same_counts t t) by (split; reflexivity).
  destruct (framed_for_each rs (process_record w tok orig)
              (framed_process_record w tok orig) t t Hs) as (r & d & H & _).
  eauto.
Qed.

(** X5.  Records are handled in the order of the batch and nothing a later
    record holds reaches an earlier one: the trace of a batch begins with the
    trace of each of its non-empty prefixes, and when the prefix raised, for
    whatever reason, the batch raises the same exception and adds nothing. *)
Theorem X5_batch_extends_its_prefixes (w : world) (rs post : list json) :
  rs <> [] ->
  exists d,
    snd (run w (sqs_event (rs ++ post))) = snd (run w (sqs_event rs)) ++ d /\
    forall e, fst (run w (sqs_event rs)) = Raise e ->
              d = [] /\ fst (run w (sqs_event (rs ++ post))) = Raise e.
Proof.
  intros Hrs.
  assert (Hrs' : rs ++ post <> []) by (destruct rs; [contradiction|discriminate]).
  rewrite (handler_nonempty w _ Hrs), (handler_nonempty w _ Hrs'). cbv zeta.
  destruct (rbind (secretsmanager w 0 (Some (TOKEN_SECRET_ARN w))) secret_string)
    as [tok|e0].
  2:{ exists []. rewrite app_nil_r. auto. }
  destruct (secretsmanager w 1 (ORIGIN_VERIFY_ARN w)) as [response|e0].
  2:{ exists []. rewrite app_nil_r. auto. }
  destruct (secret_string response) as [orig|e0].
  2:{ exists []. rewrite app_nil_r. auto. }
  rewrite for_each_app.
  destruct (for_each rs (process_record w tok orig) _) as [[[]|e0] t'].
  - destruct (loop_extends w tok orig post t') as (r & d & ->).
    exists d. split; [reflexivity|]. discriminate.
  - exists []. rewrite app_nil_r. auto.
Qed.

(** X5 at a batch whose first record is not reached past a refused request. *)
Lemma X5_witness :
  exists d,
    snd (run Examples.failing
             (sqs_event ([sqs_record (Examples.ecs_text "foo/bar.txt" "Object Created")]
                         ++ [sqs_record Examples.other_text])))
      = snd (run Examples.failing
                 (sqs_event [sqs_record (Examples.ecs_text "foo/bar.txt" "Object Created")]))
        ++ d /\
    forall e,
      fst (run Examples.failing
               (sqs_event [sqs_record (Examples.ecs_text "foo/bar.txt" "Object Created")]))
        = Raise e ->
      d = [] /\
      fst (run Examples.failing
               (sqs_event ([sqs_record (Examples.ecs_text "foo/bar.txt" "Object Created")]
                           ++ [sqs_record Examples.other_text])))
        = Raise e.
Proof.
  apply (X5_batch_extends_its_prefixes Examples.failing
           [sqs_record (Examples.ecs_text "foo/bar.txt" "Object Created")]
           [sqs_record Examples.other_text]).
  discriminate.
Defined.

(** *** Records that are not messages of the two shapes *)

(** X6.  Only a decoding error is absorbed.  When [json.loads] raises
    anything else, or when the body of the record is not a string, the
    exception leaves the loop: an invocation whose first record is such a
    record raises it without a request. *)
Theorem X6_only_decode_errors_are_absorbed (w : world) (tok orig : string)
    (record body : json) (e : exn) (post : list json) :
  py_get record "body" (JStr EmptyString) = Ok body ->
  loads w body = Raise e ->
  e <> JSONDecodeError ->
  (forall t, process_record w tok orig record t = (Raise e, t)) /\
  (fetch w 0 (Some (TOKEN_SECRET_ARN w)) = Ok tok ->
   fetch w 1 (ORIGIN_VERIFY_ARN w) = Ok orig ->
   fst (run w (sqs_event (record :: post))) = Raise e /\
   requests (snd (run w (sqs_event (record :: post)))) = []).
Proof.
  intros Hb Hl He.
  assert (Hrec : forall t, process_record w tok orig record t = (Raise e, t)).
  { intros t. rewrite process_record_run, Hb, Hl.
    destruct e; try reflexivity. contradiction. }
  split; [exact Hrec|].
  unfold fetch. intros Htok Horig.
  rewrite (handler_nonempty w (record :: post)) by discriminate. cbv zeta.
  rewrite Htok.
  destruct (secretsmanager w 1 (ORIGIN_VERIFY_ARN w)) as [response|e0];
    simpl in Horig; [|discriminate].
  rewrite Horig. simpl for_each. unfold bind. rewrite Hrec. split; reflexivity.
Qed.

(** X6 at a record whose body is [null]. *)
Lemma X6_witness :
  (forall t, process_record Examples.healthy "token-1" "origin-1"
               (JObj [("body", JNull)]) t = (Raise TypeError, t)) /\
  (fetch Examples.healthy 0 (Some (TOKEN_SECRET_ARN Examples.healthy)) = Ok "token-1" ->
   fetch Examples.healthy 1 (ORIGIN_VERIFY_ARN Examples.healthy) = Ok "origin-1" ->
   fst (run Examples.healthy
            (sqs_event (JObj [("body", JNull)]
                        :: [sqs_record (Examples.ecs_text "foo/bar.txt" "Object Created")])))
     = Raise TypeError /\
   requests (snd (run Examples.healthy
            (sqs_event (JObj [("body", JNull)]
                        :: [sqs_record (Examples.ecs_text "foo/bar.txt" "Object Created")]))))
     = []).
Proof.
  apply (X6_only_decode_errors_are_absorbed Examples.healthy "token-1" "origin-1"
           (JObj [("body", JNull)]) JNull TypeError
           [sqs_record (Examples.ecs_text "foo/bar.txt" "Object Created")]).
  - reflexivity.
  - reflexivity.
  - discriminate.
Defined.

(** X7.  In a task-state-change event an absent [detail], [overrides] or
    [containerOverrides] key is read as empty and the message is skipped with
    one error line, while a [detail] or an [overrides] that is present but is
    not an object makes the record raise [AttributeError]. *)
Theorem X7_absent_key_skips_and_wrong_type_raises (w : world) (tok orig : string)
    (record : json) (items : list (string * json)) (t : trace) :
  message_payload w record (JObj items) ->
  dict_lookup "detail-type" items = Some (JStr ECS_TASK_STATE_CHANGE) ->
  let out := process_record w tok orig record t in
  let skipped :=
    (Ok tt, t ++ [Log ERROR "Missing S3_OBJECT_KEY or EVENT_TYPE in ECS detail; skipping"]) in
  (dict_lookup "detail" items = None -> out = skipped) /\
  (forall v, dict_lookup "detail" items = Some v -> (forall d, v <> JObj d) ->
             out = (Raise AttributeError, t)) /\
  (forall d, dict_lookup "detail" items = Some (JObj d) ->
             dict_lookup "overrides" d = None -> out = skipped) /\
  (forall d v, dict_lookup "detail" items = Some (JObj d) ->
               dict_lookup "overrides" d = Some v -> (forall o, v <> JObj o) ->
               out = (Raise AttributeError, t)) /\
  (forall d o, dict_lookup "detail" items = Some (JObj d) ->
               dict_lookup "overrides" d = Some (JObj o) ->
               dict_lookup "containerOverrides" o = None -> out = skipped).
Proof.
  intros [s [Hb Hl]] Hdt. cbv zeta.
  assert (Hrun : process_record w tok orig record t
                 = handle_ecs_task_failure w (JObj items) tok orig t).
  { rewrite process_record_run, Hb. simpl. rewrite Hl. simpl. rewrite Hdt.
    reflexivity. }
  rewrite Hrun, handle_ecs_task_failure_run. unfold ecs_path. simpl.
  repeat split.
  - intros ->. reflexivity.
  - intros v -> Hv. destruct v; try reflexivity. exfalso. eapply Hv. reflexivity.
  - intros d -> Ho. simpl. rewrite Ho. reflexivity.
  - intros d v -> Ho Hv. simpl. rewrite Ho.
    destruct v; try reflexivity. exfalso. eapply Hv. reflexivity.
  - intros d o -> Ho Hc. simpl. rewrite Ho. simpl. rewrite Hc. reflexivity.
Qed.

(** X7 at an event without [detail] and at an event whose [detail] is
    [null]. *)
Lemma X7_witness :
  process_record MoreExamples.healthy "token-1" "origin-1"
    (sqs_record MoreExamples.bare_ecs_text) []
    = (Ok tt,
       [] ++ [Log ERROR "Missing S3_OBJECT_KEY or EVENT_TYPE in ECS detail; skipping"]) /\
  process_record MoreExamples.healthy "token-1" "origin-1"
    (sqs_record MoreExamples.null_detail_text) []
    = (Raise AttributeError, []).
Proof.
  split.
  - destruct (X7_absent_key_skips_and_wrong_type_raises
                MoreExamples.healthy "token-1" "origin-1"
                (sqs_record MoreExamples.bare_ecs_text)
                [("detail-type", JStr "ECS Task State Change")] []) as (H & _).
    + exists MoreExamples.bare_ecs_text. split; reflexivity.
    + reflexivity.
    + apply H. reflexivity.
  - destruct (X7_absent_key_skips_and_wrong_type_raises
                MoreExamples.healthy "token-1" "origin-1"
                (sqs_record MoreExamples.null_detail_text)
                [("detail-type", JStr "ECS Task State Change"); ("detail", JNull)] [])
      as (_ & H & _).
    + exists MoreExamples.null_detail_text. split; reflexivity.
    + reflexivity.
    + apply (H JNull); [reflexivity|discriminate].
Defined.

Lemma effects_log (t : trace) (lvl : level) (msg : string) :
  effects (t ++ [Log lvl msg]) = effects t.
Proof. rewrite effects_app. apply app_nil_r. Qed.

(** The result and the effects of [patch_status] after one more log line. *)
Lemma patch_status_after_log (w : world) (doc status tok orig h : string) (t : trace) :
  let out := patch_status w doc status tok orig (t ++ [Log INFO h]) in
  let req := patch_request w doc status tok orig in
  fst out = match accepts w req with
            | Ok _ => fst (patch_outcome (management_api w (List.length (requests t)) req))
            | Raise e => Raise e
            end /\
  effects (snd out) = effects t ++ match accepts w req with
                                   | Ok _ => [UrlOpen req 30]
                                   | Raise _ => []
                                   end.
Proof.
  cbv zeta. rewrite patch_status_run. cbv zeta. rewrite requests_log.
  destruct (accepts w _) as [[]|e]; simpl fst; cbn [snd].
  - split; [reflexivity|].
    rewrite !effects_app, patch_outcome_effects. simpl.
    rewrite app_nil_r. reflexivity.
  - split; [reflexivity|]. rewrite !effects_app. simpl.
    rewrite !app_nil_r. reflexivity.
Qed.

Lemma report_from_messages (w : world) (m u h m' u' h' : string) (ovs : json)
    (tok orig : string) (t : trace) :
  fst (report_from w m u h ovs tok orig t) = fst (report_from w m' u' h' ovs tok orig t) /\
  effects (snd (report_from w m u h ovs tok orig t))
    = effects (snd (report_from w m' u' h' ovs tok orig t)).
Proof.
  rewrite !report_from_run.
  destruct (get_key_and_event_type ovs) as [[key et]|e]; [|auto].
  destruct (negb (truthy key) || negb (truthy et)).
  { simpl. rewrite !effects_log. auto. }
  destruct (status_from_event_type et) as [status|].
  2:{ simpl. rewrite !effects_log. auto. }
  destruct (path_stem key) as [doc|e]; [|auto].
  destruct (patch_status_after_log w doc status tok orig h t) as [-> ->].
  destruct (patch_status_after_log w doc status tok orig h' t) as [-> ->].
  auto.
Qed.

(** X8.  A message is handled by its selected overrides alone: two messages,
    of either shape, that select the same overrides end in the same result
    with the same secret fetches and requests; only their log lines differ. *)
Theorem X8_same_overrides_same_outcome (w : world) (tok orig : string)
    (r1 r2 p1 p2 ovs : json) (t : trace) :
  message_payload w r1 p1 -> message_payload w r2 p2 ->
  overrides_of p1 ovs -> overrides_of p2 ovs ->
  fst (process_record w tok orig r1 t) = fst (process_record w tok orig r2 t) /\
  effects (snd (process_record w tok orig r1 t))
    = effects (snd (process_record w tok orig r2 t)).
Proof.
  intros Hm1 Hm2 Ho1 Ho2.
  destruct (record_selects w tok orig r1 p1 ovs t Hm1 Ho1) as [-> | ->];
    destruct (record_selects w tok orig r2 p2 ovs t Hm2 Ho2) as [-> | ->];
    apply report_from_messages.
Qed.

(** X8 at the message of section 8 in its two shapes. *)
Lemma X8_witness :
  fst (process_record MoreExamples.healthy "token-1" "origin-1"
         (sqs_record (Examples.ecs_text "foo/bar.txt" "Object Created")) [])
    = fst (process_record MoreExamples.healthy "token-1" "origin-1"
             (sqs_record (MoreExamples.run_task_text "foo/bar.txt" "Object Created")) []) /\
  effects (snd (process_record MoreExamples.healthy "token-1" "origin-1"
         (sqs_record (Examples.ecs_text "foo/bar.txt" "Object Created")) []))
    = effects (snd (process_record MoreExamples.healthy "token-1" "origin-1"
             (sqs_record (MoreExamples.run_task_text "foo/bar.txt" "Object Created")) [])).
Proof.
  apply (X8_same_overrides_same_outcome MoreExamples.healthy "token-1" "origin-1"
           (sqs_record (Examples.ecs_text "foo/bar.txt" "Object Created"))
           (sqs_record (MoreExamples.run_task_text "foo/bar.txt" "Object Created"))
           (Examples.ecs_payload "foo/bar.txt" "Object Created")
           (MoreExamples.run_task_payload "foo/bar.txt" "Object Created")
           (JArr [JObj [("environment",
                         JArr [Examples.item "S3_OBJECT_KEY" "foo/bar.txt";
                               Examples.item "EVENT_TYPE" "Object Created"])]]) []).
  - exists (Examples.ecs_text "foo/bar.txt" "Object Created"). split; reflexivity.
  - exists (MoreExamples.run_task_text "foo/bar.txt" "Object Created").
    split; reflexivity.
  - eapply overrides_ecs; reflexivity.
  - apply overrides_run_task; [discriminate|reflexivity].
Defined.

(** *** The two secret helpers *)


(** *** Extraction of the two fields *)

Lemma iterable_as_iter (v : json) (items : list json) :
  iterable_as v items -> py_iter v = Ok items.
Proof. intros [-> | [-> [-> | ->]]]; reflexivity. Qed.

(** X10.  [get_key_and_event_type] returns exactly on the overrides that are
    falsy or that are a list whose first element is an object with a
    well-formed environment; on every other value it raises.  The overrides
    after the first are never inspected. *)
Theorem X10_extraction_returns_iff_well_formed (ovs : json) :
  (exists key event_type, get_key_and_event_type ovs = Ok (key, event_type))
  <-> extraction_defined ovs.
Proof.
  split.
  - intros (key & et & H). unfold get_key_and_event_type in H.
    destruct (truthy ovs) eqn:Hovs; [|left; exact Hovs]. simpl in H. right.
    destruct ovs as [| | | | [|c s] | [|first rest] | items]; simpl in H;
      try discriminate.
    destruct first as [| | | | | |fields]; simpl in H; try discriminate.
    set (env_list := match dict_lookup "environment" fields with
                     | Some x => x | None => JArr [] end) in *.
    destruct (py_iter env_list) as [its|] eqn:Hiter; simpl in H; [|discriminate].
    destruct (env_map_of its []) as [m|] eqn:Hm; simpl in H; [|discriminate].
    exists fields, rest, its. split; [reflexivity|].
    split; [|exact (env_map_of_inv _ _ _ Hm)].
    change (iterable_as env_list its).
    destruct env_list as [| | | |s|xs|kvs]; simpl in Hiter; try discriminate;
      injection Hiter as <-.
    + pose proof (env_map_of_chars _ _ _ Hm) as ->.
      right. split; [reflexivity|auto].
    + left. reflexivity.
    + pose proof (env_map_of_keys _ _ _ Hm) as ->.
      right. split; [reflexivity|auto].
  - intros [Hf | (fields & rest & items & -> & Hit & Hok)].
    + unfold get_key_and_event_type. rewrite Hf. simpl. eauto.
    + unfold get_key_and_event_type. simpl.
      rewrite (iterable_as_iter _ _ Hit). simpl.
      destruct (env_map_of_ok items Hok []) as [m [-> _]]. simpl. eauto.
Qed.

Lemma env_value_last (name : string) (v : json) (env : list json) :
  env_value name (env ++ [JObj [("name", JStr name); ("value", v)]]) = Some v.
Proof.
  induction env as [|item env IH]; simpl.
  - rewrite String.eqb_refl. reflexivity.
  - rewrite IH. reflexivity.
Qed.

Lemma env_item_ok_entry (name : string) (v : json) :
  env_item_ok (JObj [("name", JStr name); ("value", v)]).
Proof. eexists. split; reflexivity. Qed.

(** X11.  Of several entries with the same name the last one counts: an
    entry appended to a well-formed environment list fixes the value that is
    extracted for its name, whatever stands before it. *)
Theorem X11_last_entry_wins (fields : list (string * json)) (rest env : list json)
    (v : json) :
  Forall env_item_ok env ->
  (dict_lookup "environment" fields
     = Some (JArr (env ++ [JObj [("name", JStr "S3_OBJECT_KEY"); ("value", v)]])) ->
   exists event_type,
     get_key_and_event_type (JArr (JObj fields :: rest)) = Ok (v, event_type)) /\
  (dict_lookup "environment" fields
     = Some (JArr (env ++ [JObj [("name", JStr "EVENT_TYPE"); ("value", v)]])) ->
   exists key,
     get_key_and_event_type (JArr (JObj fields :: rest)) = Ok (key, v)).
Proof.
  intros Hok. split; intros Hlk.
  - rewrite (extraction_ok (JObj fields) rest
               (env ++ [JObj [("name", JStr "S3_OBJECT_KEY"); ("value", v)]])).
    + unfold env_or_null at 1. rewrite env_value_last. eauto.
    + exists fields. split; [reflexivity|]. rewrite Hlk. split; [reflexivity|].
      apply Forall_app. split; [exact Hok|].
      constructor; [apply env_item_ok_entry|constructor].
  - rewrite (extraction_ok (JObj fields) rest
               (env ++ [JObj [("name", JStr "EVENT_TYPE"); ("value", v)]])).
    + unfold env_or_null at 2. rewrite env_value_last. eauto.
    + exists fields. split; [reflexivity|]. rewrite Hlk. split; [reflexivity|].
      apply Forall_app. split; [exact Hok|].
      constructor; [apply env_item_ok_entry|constructor].
Qed.

(** X11 at a list that gives the key twice. *)
Lemma X11_witness :
  exists event_type,
    get_key_and_event_type
      (JArr (JObj [("environment",
                    JArr ([Examples.item "S3_OBJECT_KEY" "old/key.txt";
                           Examples.item "EVENT_TYPE" "Object Created"]
                          ++ [JObj [("name", JStr "S3_OBJECT_KEY");
                                    ("value", JStr "new/key.txt")]]))] :: []))
    = Ok (JStr "new/key.txt", event_type).
Proof.
  destruct (X11_last_entry_wins
              [("environment",
                JArr ([Examples.item "S3_OBJECT_KEY" "old/key.txt";
                       Examples.item "EVENT_TYPE" "Object Created"]
                      ++ [JObj [("name", JStr "S3_OBJECT_KEY");
                                ("value", JStr "new/key.txt")]]))]
              []
              [Examples.item "S3_OBJECT_KEY" "old/key.txt";
               Examples.item "EVENT_TYPE" "Object Created"]
              (JStr "new/key.txt")) as [H _].
  - repeat constructor; eexists; split; reflexivity.
  - apply H. reflexivity.
Defined.

Lemma env_map_of_stops (pre post : list json) (bad : json) (e : exn) :
  Forall env_item_ok pre ->
  (forall acc, env_map_of (bad :: post) acc = Raise e) ->
  forall acc, env_map_of (pre ++ bad :: post) acc = Raise e.
Proof.
  intros Hpre Hbad. induction Hpre as [|item pre Hitem _ IH]; intros acc.
  - apply Hbad.
  - destruct Hitem as [f [-> Hhash]]. simpl.
    simpl in Hhash. rewrite Hhash. apply IH.
Qed.

(** X12.  One entry that is not an object, anywhere in the environment list
    of the first override, makes the extraction raise [AttributeError], and
    one entry whose name is a list or an object makes it raise [TypeError],
    also when both values stand in the list: the first such entry decides. *)
Theorem X12_malformed_entry_raises (fields : list (string * json))
    (rest pre post : list json) (bad : json) :
  dict_lookup "environment" fields = Some (JArr (pre ++ bad :: post)) ->
  Forall env_item_ok pre ->
  ((forall f, bad <> JObj f) ->
   get_key_and_event_type (JArr (JObj fields :: rest)) = Raise AttributeError) /\
  (forall f n,
      bad = JObj f -> dict_lookup "name" f = Some n -> hashable n = false ->
      get_key_and_event_type (JArr (JObj fields :: rest)) = Raise TypeError).
Proof.
  intros Hlk Hpre.
  unfold get_key_and_event_type. simpl. rewrite Hlk. simpl.
  split.
  - intros Hbad. rewrite (env_map_of_stops pre post bad AttributeError Hpre);
      [reflexivity|].
    intros acc. destruct bad; try reflexivity. exfalso. eapply Hbad. reflexivity.
  - intros f n -> Hn Hhash.
    rewrite (env_map_of_stops pre post (JObj f) TypeError Hpre); [reflexivity|].
    intros acc. simpl. rewrite Hn, Hhash. reflexivity.
Qed.

(** X12 at a list whose third entry is a string. *)
Lemma X12_witness :
  get_key_and_event_type
    (JArr (JObj [("environment",
                  JArr ([Examples.item "S3_OBJECT_KEY" "foo/bar.txt";
                         Examples.item "EVENT_TYPE" "Object Created"]
                        ++ JStr "DEBUG=1" :: []))] :: []))
  = Raise AttributeError.
Proof.
  destruct (X12_malformed_entry_raises
              [("environment",
                JArr ([Examples.item "S3_OBJECT_KEY" "foo/bar.txt";
                       Examples.item "EVENT_TYPE" "Object Created"]
                      ++ JStr "DEBUG=1" :: []))]
              []
              [Examples.item "S3_OBJECT_KEY" "foo/bar.txt";
               Examples.item "EVENT_TYPE" "Object Created"]
              [] (JStr "DEBUG=1")) as [H _].
  - reflexivity.
  - repeat constructor; eexists; split; reflexivity.
  - apply H. discriminate.
Defined.

(** *** The report and the skip *)

Lemma is_2xx_spec (code : Z) : is_2xx code = true <-> (200 <= code < 300)%Z.
Proof. unfold is_2xx. rewrite andb_true_iff, Z.leb_le, Z.ltb_lt. tauto. Qed.

(** X16.  [patch_status] sends at most one request.  When the constructor
    of the request raises (as it does on a URL without a scheme), nothing is
    sent: the exception reaches the caller after the first log line, with no
    error line.  Otherwise exactly one request is sent, whatever the answer;
    [patch_status] returns normally exactly when the answer has a status from
    200 to 299, and every other end of the exchange is raised to the
    caller. *)
Theorem X16_patch_status_outcome (w : world) (doc status tok orig : string)
    (t : trace) :
  let req := patch_request w doc status tok orig in
  let out := patch_status w doc status tok orig t in
  let answer := management_api w (List.length (requests t)) req in
  (forall e, accepts w req = Raise e ->
     out = (Raise e, t ++ [Log INFO "Patching document status via management-api"]) /\
     requests (snd out) = requests t) /\
  (accepts w req = Ok tt ->
   requests (snd out) = requests t ++ [req] /\
   (fst out = Ok tt <->
    exists code body, answer = Reply code body /\ (200 <= code < 300)%Z) /\
   (forall e, failure_of answer = Some e -> fst out = Raise e)).
Proof.
  cbv zeta. split.
  - intros e Hacc. rewrite (patch_status_refused _ _ _ _ _ _ _ Hacc).
    split; [reflexivity|]. apply requests_log.
  - intros Hacc. rewrite patch_status_requests, patch_status_run. cbv zeta.
    rewrite Hacc. simpl fst. split; [reflexivity|].
    rewrite patch_outcome_failure.
    destruct (management_api w _ _) as [code body|reason|e0]; simpl.
    + destruct (is_2xx code) eqn:H2xx; simpl.
      * split; [|discriminate]. split; [|reflexivity].
        intros _. exists code, body. split; [reflexivity|].
        apply is_2xx_spec. exact H2xx.
      * split.
        -- split; [discriminate|].
           intros (c & b & [= <- <-] & Hc). apply is_2xx_spec in Hc. congruence.
        -- intros e [= <-]. reflexivity.
    + split.
      * split; [discriminate|]. intros (c & b & H & _). discriminate.
      * intros e [= <-]. reflexivity.
    + split.
      * split; [discriminate|]. intros (c & b & H & _). discriminate.
      * intros e [= <-]. reflexivity.
Qed.

(** X16 when [ALB_BASE_URL] is a bare host name, and in the healthy world. *)
Lemma X16_witness :
  (patch_status Examples.no_scheme "bar" "failed" "token-1" "origin-1" []
     = (Raise ValueError, [Log INFO "Patching document status via management-api"]) /\
   requests (snd (patch_status Examples.no_scheme "bar" "failed" "token-1" "origin-1" []))
     = []) /\
  requests (snd (patch_status Examples.healthy "bar" "failed" "token-1" "origin-1" []))
    = [patch_request Examples.healthy "bar" "failed" "token-1" "origin-1"].
Proof.
  split.
  - destruct (X16_patch_status_outcome Examples.no_scheme "bar" "failed"
                "token-1" "origin-1" []) as [H _].
    apply (H ValueError). reflexivity.
  - destruct (X16_patch_status_outcome Examples.healthy "bar" "failed"
                "token-1" "origin-1" []) as [_ H].
    apply H. reflexivity.
Defined.

(** X17.  No message is dropped silently: a record that is passed over,
    returning normally without a request, leaves exactly one error line. *)
Theorem X17_no_silent_skip (w : world) (tok orig : string) (record : json)
    (t : trace) :
  fst (process_record w tok orig record t) = Ok tt ->
  requests (snd (process_record w tok orig record t)) = requests t ->
  exists msg, snd (process_record w tok orig record t) = t ++ [Log ERROR msg].
Proof.
  destruct (record_trace w tok orig record t)
    as [[e Hrun] | [[msg Hrun] | (doc & status & h & Hrun)]]; rewrite Hrun.
  - discriminate.
  - intros _ _. exists msg. reflexivity.
  - intros Hok Hreq. exfalso.
    rewrite patch_status_requests, requests_log in Hreq.
    rewrite patch_status_run in Hok. cbv zeta in Hok.
    destruct (accepts w _) as [[]|e]; [|discriminate].
    exact (app_one_neq _ _ Hreq).
Qed.

(** X17 at a message of neither shape. *)
Lemma X17_witness :
  exists msg,
    snd (process_record Examples.healthy "token-1" "origin-1"
           (sqs_record Examples.other_text) [])
    = [] ++ [Log ERROR msg].
Proof.
  apply (X17_no_silent_skip Examples.healthy "token-1" "origin-1"
           (sqs_record Examples.other_text) []); reflexivity.
Defined.

(** X18.  A report whose request cannot be constructed stops the batch as a
    failed request does, but silently: the record raises the exception of the
    constructor right after the two log lines that announce the report, no
    request is sent, no error line is written, and the records that follow
    are not reached. *)
Theorem X18_unconstructible_request_halts_batch (w : world) (tok orig : string)
    (record payload : json) (key et : string) (e : exn) (t : trace)
    (post : list json) :
  message_payload w record payload ->
  reportable payload key et ->
  accepts w (patch_request w (stem_of_name (path_name key)) (status_of et) tok orig)
    = Raise e ->
  (exists h,
     process_record w tok orig record t =
       (Raise e,
        t ++ [Log INFO h; Log INFO "Patching document status via management-api"])) /\
  requests (snd (process_record w tok orig record t)) = requests t /\
  for_each (record :: post) (process_record w tok orig) t
    = process_record w tok orig record t.
Proof.
  intros Hm Hr Hacc.
  destruct (reportable_run w tok orig record payload key et t Hm Hr) as [h Hrun].
  rewrite (patch_status_refused _ _ _ _ _ _ _ Hacc) in Hrun.
  rewrite <- app_assoc in Hrun. simpl in Hrun.
  split; [exists h; exact Hrun|]. split.
  - rewrite Hrun. cbn [snd]. rewrite requests_app. simpl. apply app_nil_r.
  - simpl for_each. unfold bind. rewrite Hrun. reflexivity.
Qed.

(** X18 at the batch of section 8 when [ALB_BASE_URL] is a bare host name. *)
Lemma X18_witness :
  requests (snd (process_record Examples.no_scheme "token-1" "origin-1"
                   (sqs_record (Examples.ecs_text "foo/bar.txt" "Object Created")) []))
    = requests [] /\
  for_each (sqs_record (Examples.ecs_text "foo/bar.txt" "Object Created")
              :: [sqs_record (Examples.ecs_text "docs/a.pdf" "Object Deleted")])
           (process_record Examples.no_scheme "token-1" "origin-1") []
    = process_record Examples.no_scheme "token-1" "origin-1"
        (sqs_record (Examples.ecs_text "foo/bar.txt" "Object Created")) [].
Proof.
  destruct (X18_unconstructible_request_halts_batch
              Examples.no_scheme "token-1" "origin-1"
              (sqs_record (Examples.ecs_text "foo/bar.txt" "Object Created"))
              (Examples.ecs_payload "foo/bar.txt" "Object Created")
              "foo/bar.txt" "Object Created" ValueError []
              [sqs_record (Examples.ecs_text "docs/a.pdf" "Object Deleted")])
    as (_ & H1 & H2).
  - exists (Examples.ecs_text "foo/bar.txt" "Object Created"). split; reflexivity.
  - apply ecs_payload_reportable; [discriminate|auto].
  - reflexivity.
  - split; [exact H1|exact H2].
Defined.

(* ------------------------------------------------------------------------- *)
(** ** The claim on the extension initializer                                *)
(* ------------------------------------------------------------------------- *)

Section Pgvector.

Import InitPgvector PgvectorSpec.

(** Unfolds the handler and splits on every answer of the world. *)
Ltac run_handler :=
  unfold run, handler, with_cursor, environ, call, try_finally, bind, lift in *;
  repeat match goal with
         | |- context [match ?x with _ => _ end] =>
             lazymatch x with
             | context [match _ with _ => _ end] => fail
             | _ => destruct x eqn:?
             end
         | H : context [match ?x with _ => _ end] |- _ =>
             lazymatch x with
             | context [match _ with _ => _ end] => fail
             | _ => destruct x eqn:?
             end
         end.

(** The invocation, answer by answer. *)
Lemma handler_run (w : world) (ev ctx : json) :
  run w ev ctx =
    let t0 := [Boto3Client "secretsmanager"] in
    match boto3_client w with
    | Raise e => (Raise e, t0)
    | Ok _ =>
    match os_environ w "DB_PASSWORD_SECRET_ARN" with
    | None => (Raise KeyError, t0)
    | Some id =>
    let t1 := t0 ++ [GetSecretValue id] in
    match secretsmanager w id with
    | Raise e => (Raise e, t1)
    | Ok None => (Raise KeyError, t1)
    | Ok (Some pw) =>
    match os_environ w "DB_ENDPOINT" with
    | None => (Raise KeyError, t1)
    | Some h =>
    match os_environ w "DB_NAME" with
    | None => (Raise KeyError, t1)
    | Some n =>
    match os_environ w "DB_USER" with
    | None => (Raise KeyError, t1)
    | Some u =>
    let args := mkConnectArgs h 5432 n u pw 30 in
    let t2 := t1 ++ [Connect args] in
    match psycopg2_connect w args with
    | Raise e => (Raise e, t2)
    | Ok _ => (fst (transaction w), t2 ++ snd (transaction w))
    end end end end end end end.
Proof.
  unfold transaction, released, CREATE_EXTENSION. cbv zeta.
  run_handler;
    repeat match goal with a : unit |- _ => destruct a end; reflexivity.
Qed.

(** Splits on every answer of the world that the goal or a hypothesis
    inspects. *)
Ltac split_world :=
  repeat match goal with
         | |- context [match ?x with _ => _ end] =>
             lazymatch x with
             | context [match _ with _ => _ end] => fail
             | _ => destruct x eqn:?
             end
         | H : context [match ?x with _ => _ end] |- _ =>
             lazymatch x with
             | context [match _ with _ => _ end] => fail
             | _ => destruct x eqn:?
             end
         end.

(** Closes a case in which every answer is known. *)
Ltac settle :=
  unfold last_event, closes in *; simpl in *;
  repeat match goal with
         | a : unit |- _ => destruct a
         | H : False |- _ => contradiction
         | H : _ \/ _ |- _ => destruct H
         | H : _ = _ |- _ => discriminate H
         | H : Connect _ = Connect _ |- _ => injection H as <-
         | H : GetSecretValue _ = GetSecretValue _ |- _ => injection H as <-
         | |- _ /\ _ => split
         | |- forall _, _ => intro
         | |- ~ _ => intro
         | |- exists _, _ => eexists
         end;
  try reflexivity; try congruence;
  try solve [repeat (first [left; reflexivity | right])].

(** C8.  Once the connection is established, the statement is executed when
    a cursor is obtained and committed when nothing fails, and the connection
    is closed exactly once, as the last event of the invocation, whatever the
    cursor, the statement or the commit did.  A failure of the secret
    retrieval, of the connection, of the statement or of the commit makes the
    invocation raise: that very exception, unless closing the cursor or the
    connection raises on top of it. *)
Theorem C8_extension_initializer (w : world) (ev ctx : json) :
  let out := run w ev ctx in
  (forall id e,
      In (GetSecretValue id) (snd out) -> secretsmanager w id = Raise e ->
      out = (Raise e, [Boto3Client "secretsmanager"; GetSecretValue id])) /\
  (forall args e,
      In (Connect args) (snd out) -> psycopg2_connect w args = Raise e ->
      fst out = Raise e /\ last_event (snd out) = Some (Connect args) /\
      closes (snd out) = 0) /\
  (forall args,
      In (Connect args) (snd out) -> psycopg2_connect w args = Ok tt ->
      last_event (snd out) = Some Close /\ closes (snd out) = 1 /\
      (conn_cursor w = Ok tt -> In (Execute CREATE_EXTENSION) (snd out)) /\
      (conn_cursor w = Ok tt -> cursor_execute w CREATE_EXTENSION = Ok tt ->
       cursor_close w = Ok tt -> conn_commit w = Ok tt -> conn_close w = Ok tt ->
       fst out = Ok tt /\
       skipn 2 (snd out) =
         [Connect args; Cursor; Execute CREATE_EXTENSION; CursorClose; Commit; Close]) /\
      (forall e,
          conn_cursor w = Ok tt -> cursor_execute w CREATE_EXTENSION = Raise e ->
          ~ In Commit (snd out) /\ (exists e', fst out = Raise e') /\
          (cursor_close w = Ok tt -> conn_close w = Ok tt -> fst out = Raise e)) /\
      (forall e,
          conn_cursor w = Ok tt -> cursor_execute w CREATE_EXTENSION = Ok tt ->
          cursor_close w = Ok tt -> conn_commit w = Raise e ->
          (exists e', fst out = Raise e') /\
          (conn_close w = Ok tt -> fst out = Raise e))).
Proof.
  cbv zeta. rewrite handler_run. cbv zeta.
  unfold transaction, released.
  split; [|split].
  - intros id e Hin Hs. split_world; settle.
  - intros args e Hin Hc. split_world; settle.
  - intros args Hin Hc. split_world; settle.
Qed.

(** C8 on a database where every call succeeds, where the statement is
    refused, and where the commit is refused. *)
Lemma C8_witness :
  (fst (run healthy JNull JNull) = Ok tt /\
   skipn 2 (snd (run healthy JNull JNull)) =
     [Connect example_args; Cursor; Execute CREATE_EXTENSION; CursorClose; Commit; Close]) /\
  (last_event (snd (run no_privilege JNull JNull)) = Some Close /\
   closes (snd (run no_privilege JNull JNull)) = 1 /\
   fst (run no_privilege JNull JNull) = Raise (OtherError "InsufficientPrivilege")) /\
  (last_event (snd (run no_commit JNull JNull)) = Some Close /\
   fst (run no_commit JNull JNull) = Raise (OtherError "OperationalError")).
Proof.
  split; [|split].
  - destruct (C8_extension_initializer healthy JNull JNull) as (_ & _ & H).
    destruct (H example_args) as (_ & _ & _ & Hok & _).
    + vm_compute. auto.
    + reflexivity.
    + apply Hok; reflexivity.
  - destruct (C8_extension_initializer no_privilege JNull JNull) as (_ & _ & H).
    destruct (H example_args) as (Hlast & Hone & _ & _ & Hexec & _).
    + vm_compute. auto.
    + reflexivity.
    + split; [exact Hlast|]. split; [exact Hone|].
      destruct (Hexec (OtherError "InsufficientPrivilege") eq_refl eq_refl)
        as (_ & _ & Hprop).
      apply Hprop; reflexivity.
  - destruct (C8_extension_initializer no_commit JNull JNull) as (_ & _ & H).
    destruct (H example_args) as (Hlast & _ & _ & _ & _ & Hcommit).
    + vm_compute. auto.
    + reflexivity.
    + split; [exact Hlast|].
      destruct (Hcommit (OtherError "OperationalError") eq_refl eq_refl eq_refl eq_refl)
        as (_ & Hprop).
      apply Hprop; reflexivity.
Defined.

(** X13.  When one of the four environment variables is not set the
    invocation raises before any connection is attempted; when it is the
    identifier of the password, the secret is not requested either. *)
Theorem X13_missing_variable (w : world) (ev ctx : json) (name : string) :
  In name ["DB_PASSWORD_SECRET_ARN"; "DB_ENDPOINT"; "DB_NAME"; "DB_USER"] ->
  os_environ w name = None ->
  (exists e, fst (run w ev ctx) = Raise e) /\
  (forall args, ~ In (Connect args) (snd (run w ev ctx))) /\
  (name = "DB_PASSWORD_SECRET_ARN" ->
   forall id, ~ In (GetSecretValue id) (snd (run w ev ctx))) /\
  (boto3_client w = Ok tt -> name = "DB_PASSWORD_SECRET_ARN" ->
   run w ev ctx = (Raise KeyError, [Boto3Client "secretsmanager"])).
Proof.
  intros Hname Hnone. rewrite handler_run. cbv zeta.
  unfold transaction, released.
  simpl in Hname. destruct Hname as [<- | [<- | [<- | [<- | []]]]];
    split_world; settle.
Qed.

(** X13 on an empty environment. *)
Lemma X13_witness :
  (exists e, fst (run (mkWorld (fun _ => None) (Ok tt) (fun _ => Ok (Some "s3cret"))
                               (fun _ => Ok tt) (Ok tt) (fun _ => Ok tt) (Ok tt)
                               (Ok tt) (Ok tt)) JNull JNull) = Raise e) /\
  run (mkWorld (fun _ => None) (Ok tt) (fun _ => Ok (Some "s3cret"))
               (fun _ => Ok tt) (Ok tt) (fun _ => Ok tt) (Ok tt) (Ok tt) (Ok tt))
      JNull JNull
    = (Raise KeyError, [Boto3Client "secretsmanager"]).
Proof.
  destruct (X13_missing_variable
              (mkWorld (fun _ => None) (Ok tt) (fun _ => Ok (Some "s3cret"))
                       (fun _ => Ok tt) (Ok tt) (fun _ => Ok tt) (Ok tt) (Ok tt) (Ok tt))
              JNull JNull "DB_PASSWORD_SECRET_ARN") as (H1 & _ & _ & H2).
  - left. reflexivity.
  - reflexivity.
  - split; [exact H1|]. apply H2; reflexivity.
Defined.

(** X14.  The invocation returns normally only after the whole sequence:
    the secret is read, the connection is opened on port 5432 with the
    password of the secret and a timeout of 30 seconds, the statement is
    executed on a cursor that is then closed, the change is committed and the
    connection is closed. *)
Theorem X14_normal_return_means_committed (w : world) (ev ctx : json) :
  fst (run w ev ctx) = Ok tt ->
  exists id pw h n u,
    os_environ w "DB_PASSWORD_SECRET_ARN" = Some id /\
    secretsmanager w id = Ok (Some pw) /\
    os_environ w "DB_ENDPOINT" = Some h /\
    os_environ w "DB_NAME" = Some n /\
    os_environ w "DB_USER" = Some u /\
    snd (run w ev ctx) =
      [Boto3Client "secretsmanager"; GetSecretValue id;
       Connect (mkConnectArgs h 5432 n u pw 30);
       Cursor; Execute CREATE_EXTENSION; CursorClose; Commit; Close].
Proof.
  rewrite handler_run. cbv zeta. unfold transaction, released.
  intros Hok. split_world; simpl in Hok; try discriminate.
  subst. repeat eexists; try eassumption.
Qed.

(** X14 on the database where every call succeeds. *)
Lemma X14_witness :
  exists id pw h n u,
    os_environ healthy "DB_PASSWORD_SECRET_ARN" = Some id /\
    secretsmanager healthy id = Ok (Some pw) /\
    os_environ healthy "DB_ENDPOINT" = Some h /\
    os_environ healthy "DB_NAME" = Some n /\
    os_environ healthy "DB_USER" = Some u /\
    snd (run healthy JNull JNull) =
      [Boto3Client "secretsmanager"; GetSecretValue id;
       Connect (mkConnectArgs h 5432 n u pw 30);
       Cursor; Execute CREATE_EXTENSION; CursorClose; Commit; Close].
Proof.
  apply (X14_normal_return_means_committed healthy JNull JNull). reflexivity.
Defined.

(** X15.  What the initializer never does: it commits only after the
    statement was executed and its cursor closed without an exception; it
    executes no other statement than the creation of the extension, and
    closes the cursor and the connection after it; it closes the connection
    at most once, and only a connection that was opened. *)
Theorem X15_never (w : world) (ev ctx : json) :
  let t := snd (run w ev ctx) in
  (In Commit t ->
   cursor_execute w CREATE_EXTENSION = Ok tt /\ cursor_close w = Ok tt /\
   In (Execute CREATE_EXTENSION) t) /\
  (forall sql, In (Execute sql) t ->
               sql = CREATE_EXTENSION /\ In CursorClose t /\ In Close t) /\
  (In Close t -> exists args, In (Connect args) t /\ psycopg2_connect w args = Ok tt) /\
  closes t <= 1.
Proof.
  cbv zeta. rewrite handler_run. cbv zeta. unfold transaction, released.
  split_world; settle; try assumption; lia.
Qed.

(** X15 on the database where every call succeeds. *)
Lemma X15_witness :
  cursor_execute healthy CREATE_EXTENSION = Ok tt /\ cursor_close healthy = Ok tt /\
  In (Execute CREATE_EXTENSION) (snd (run healthy JNull JNull)).
Proof.
  destruct (X15_never healthy JNull JNull) as (H & _).
  apply H. vm_compute. auto 10.
Defined.

End Pgvector.
